(** * SimpleBot: a daily yes/no question bot (bot.py)

    A shallow embedding of [SimpleBot] and of the handlers it registers on
    the python-telegram-bot application, followed by the properties of its
    roster, its pending roster actions, its response log and its replies.

    The model handles one update at a time. Updates are new messages and
    button presses; sending and writing succeed; a JSON file is missing,
    does not parse, or holds a value of the shape the bot writes; text is
    made of code points below 256. *)

From Stdlib Require Import ZArith String Ascii List Sorted Permutation Lia.
From stdpp Require Import base decidable option list gmap sets strings pretty sorting.

Set Warnings "-clear-no-such-hyp".

Local Open Scope string_scope.
Local Open Scope Z_scope.

(** ** Python values used by the bot *)

Module Py.

(** A [str] is a sequence of code points; the model keeps the code points
    below 256, one per character. *)
Definition code (c : ascii) : Z := Z.of_N (N_of_ascii c).

(** [c.isdecimal()]: the characters [int] accepts as digits. *)
Definition char_isdecimal (c : ascii) : bool :=
  (48 <=? code c) && (code c <=? 57).

(** [c.isdigit()]: the decimal digits and, below 256, the superscripts
    two, three and one (U+00B2, U+00B3, U+00B9). *)
Definition char_isdigit (c : ascii) : bool :=
  char_isdecimal c
  || (code c =? 178) || (code c =? 179) || (code c =? 185).

Fixpoint all_chars (p : ascii -> bool) (s : string) : bool :=
  match s with
  | EmptyString => true
  | String c r => p c && all_chars p r
  end.

(** [s.isdigit()]: false on the empty string. *)
Definition isdigit (s : string) : bool :=
  match s with
  | EmptyString => false
  | String _ _ => all_chars char_isdigit s
  end.

(** [s.startswith(p)] *)
Definition startswith (p s : string) : bool := String.prefix p s.

Inductive exn :=
| ValueError (msg : string)
| KeyError (key : string)
| FileNotFoundError (msg : string)
| JSONDecodeError (msg : string).

(** [str(e)] *)
Definition str_exn (e : exn) : string :=
  match e with
  | ValueError m => m
  | KeyError k => "'" +:+ k +:+ "'"
  | FileNotFoundError m => m
  | JSONDecodeError m => m
  end.

Fixpoint int_go (acc : Z) (s : string) : option Z :=
  match s with
  | EmptyString => Some acc
  | String c r =>
      if char_isdecimal c then int_go (10 * acc + (code c - 48)) r else None
  end.

(** [int(s)] on a string of digits: a digit that is not decimal is a
    [ValueError]. *)
Definition int (s : string) : exn + Z :=
  match s with
  | EmptyString => inl (ValueError "invalid literal for int() with base 10: ''")
  | String _ _ =>
      match int_go 0 s with
      | Some n => inr n
      | None =>
          inl (ValueError ("invalid literal for int() with base 10: '" +:+ s +:+ "'"))
      end
  end.

(** [str(n)] for an [int]. *)
Definition str (n : Z) : string := pretty n.

(** Keys offered to a dict lookup: the bot uses [int] and [str] keys. *)
Inductive key := KInt (n : Z) | KStr (s : string).

(** [k in d] for a dict that [json.load] produced: every key of such a
    dict is a [str], and an [int] is never equal to a [str]. *)
Definition contains {V} (k : key) (d : gmap string V) : bool :=
  match k with
  | KInt _ => false
  | KStr s => bool_decide (is_Some (d !! s))
  end.

(** Truth value of an optional string ([None] and [''] are false). *)
Definition truthy (o : option string) : bool :=
  match o with
  | None | Some EmptyString => false
  | Some (String _ _) => true
  end.

End Py.

(** ** [datetime.date] and its ISO rendering *)

Module datetime.

Record date := { year : Z; month : Z; day : Z }.

Definition digit (n : Z) : ascii := ascii_of_N (Z.to_N (48 + n mod 10)).

(** ['%02d' % n] for [0 <= n < 100]. *)
Definition pad2 (n : Z) : string :=
  String (digit (n / 10)) (String (digit n) EmptyString).

(** ['%04d' % n] for [0 <= n < 10000]. *)
Definition pad4 (n : Z) : string := pad2 (n / 100) +:+ pad2 (n mod 100).

(** [d.isoformat()], that is ['%04d-%02d-%02d']. *)
Definition isoformat (d : date) : string :=
  pad4 (year d) +:+ "-" +:+ pad2 (month d) +:+ "-" +:+ pad2 (day d).

(** The dates [date.today()] can return: years 1 to 9999. *)
Definition valid (d : date) : Prop :=
  1 <= year d <= 9999 /\ 1 <= month d <= 12 /\ 1 <= day d <= 31.

(** Chronological order. *)
Definition before (a b : date) : Prop :=
  year a < year b
  \/ (year a = year b /\ month a < month b)
  \/ (year a = year b /\ month a = month b /\ day a < day b).

End datetime.

(** ** The persisted daily log (bot_logs.json) *)

Module PerUser.
Record t := {
  username : string;
  total_responses : Z;
  yes_count : Z;
  no_count : Z }.
End PerUser.

Module Response.
Record t := {
  timestamp : string;
  user_id : Z;
  username : string;
  response : string }.
End Response.

Module DailyLog.
Record t := {
  date : string;
  total_responses : Z;
  yes_responses : Z;
  no_responses : Z;
  users : gmap string PerUser.t;
  responses : list Response.t }.
End DailyLog.

(** The whole file: a JSON object keyed by ISO date. *)
Abbreviation Logs := (gmap string DailyLog.t).

(** What opening and parsing a JSON file can give. *)
Inductive file (A : Type) :=
| Missing
| Malformed (msg : string)
| Content (a : A).
Arguments Missing {A}.
Arguments Malformed {A} msg.
Arguments Content {A} a.

(** bot_users.json: [{'admins': [...], 'regular_users': [...]}]. *)
Record Roster := { admins : list Z; regular : list Z }.

(** ** Telegram objects *)

Module telegram.
Record User := {
  id : Z;
  username : option string;
  first_name : string;
  last_name : option string }.
End telegram.

(** A job of [context.job_queue]: [run_once] registers one under a name
    that need not be unique. *)
Record Job := { name : string; when : Z; chat_id : Z }.

(** ** Messages, effects and the state the handlers run on *)

(** An inline keyboard, as the rows of its buttons' [callback_data]. *)
Abbreviation Keyboard := (list (list string)).

(** The texts the bot sends. One-line ASCII literals are kept as they are;
    the others are named after the place that builds them and carry the
    values interpolated into them. *)
Inductive message :=
| Text (s : string)
| AdminWelcomeBack                 (* start_command: "Welcome back, Admin!..." *)
| Welcome                          (* start_command: welcome_text *)
| Question                         (* send_question: question_text *)
| UsernameLookupNotImplemented     (* handle_message, '@' branch *)
| NowAdmin (target_user_id : Z)    (* "... User {target_user_id} is now an admin." *)
| RemovedFromAdmins (target_user_id : Z)
                                   (* "... User {target_user_id} removed from admins." *)
| NotAnAdmin (target_user_id : Z)  (* "... User {target_user_id} is not an admin." *)
| AdminAccessGranted               (* handle_message: "Admin access granted!..." *)
| StatsText (inline : bool) (stats : DailyLog.t)
| LogsText (inline : bool) (rows : list (string * DailyLog.t))
| ExitedAdminMode                  (* "You've exited admin mode and are now..." *)
| AdminMenu                        (* build_admin_menu: menu_text *)
| UsersList (logs : Logs) (admin_users regular_users : gset Z)
                                   (* build_users_list: users_text *)
| ActionPrompt (data : string)     (* "To manage users, send me their user ID..." *)
| Thanks                           (* handle_yes_choice *)
| AskAgainLater                    (* handle_no_choice *)
| AdminNotification (user_info : string) (user : telegram.User).
                                   (* handle_yes_choice: admin_message *)

Definition not_available : message := Text "This command is not available.".
Definition not_in_admin_mode : message := Text "You are not in admin mode.".
Definition no_data_today : message := Text "No data available for today.".
Definition no_logs : message := Text "No logs available.".
Definition invalid_format : message :=
  Text "Invalid user ID format. Please send a numeric user ID.".
Definition error_getting_stats (e : Py.exn) : message :=
  Text ("Error getting stats: " +:+ Py.str_exn e).
Definition error_getting_logs (e : Py.exn) : message :=
  Text ("Error getting logs: " +:+ Py.str_exn e).

Inductive logline :=
| Line (s : string)
| LineWith (s : string) (m : message).

Inductive effect :=
| reply_text (text : message) (reply_markup : Keyboard)
| edit_message_text (text : message) (reply_markup : Keyboard)
| answer (text : option string)
| send_message (chat : Z) (text : message) (reply_markup : Keyboard)
| logger_info (l : logline)
| logger_error (l : logline)
| print (l : logline)
| write (path : string).

(** The [SimpleBot] object ([user_states], [admin_users], [regular_users]),
    the application's per-user [context.user_data] (its only key is
    ['pending_action']) and job queue, and the two files. *)
Record world := {
  user_states : gmap Z string;
  admin_users : gset Z;
  regular_users : gset Z;
  user_data : gmap Z string;
  job_queue : list Job;
  log_file : file Logs;
  users_file : file Roster }.

Definition log_file_name : string := "bot_logs.json".
Definition users_file_name : string := "bot_users.json".
Definition admin_code : string := "Admin2024".

Definition set_user_states (f : gmap Z string -> gmap Z string) (w : world) : world :=
  {| user_states := f (user_states w); admin_users := admin_users w;
     regular_users := regular_users w; user_data := user_data w;
     job_queue := job_queue w; log_file := log_file w; users_file := users_file w |}.

Definition set_admin_users (f : gset Z -> gset Z) (w : world) : world :=
  {| user_states := user_states w; admin_users := f (admin_users w);
     regular_users := regular_users w; user_data := user_data w;
     job_queue := job_queue w; log_file := log_file w; users_file := users_file w |}.

Definition set_regular_users (f : gset Z -> gset Z) (w : world) : world :=
  {| user_states := user_states w; admin_users := admin_users w;
     regular_users := f (regular_users w); user_data := user_data w;
     job_queue := job_queue w; log_file := log_file w; users_file := users_file w |}.

Definition set_user_data (f : gmap Z string -> gmap Z string) (w : world) : world :=
  {| user_states := user_states w; admin_users := admin_users w;
     regular_users := regular_users w; user_data := f (user_data w);
     job_queue := job_queue w; log_file := log_file w; users_file := users_file w |}.

Definition set_job_queue (f : list Job -> list Job) (w : world) : world :=
  {| user_states := user_states w; admin_users := admin_users w;
     regular_users := regular_users w; user_data := user_data w;
     job_queue := f (job_queue w); log_file := log_file w; users_file := users_file w |}.

Definition set_log_file (f : file Logs) (w : world) : world :=
  {| user_states := user_states w; admin_users := admin_users w;
     regular_users := regular_users w; user_data := user_data w;
     job_queue := job_queue w; log_file := f; users_file := users_file w |}.

Definition set_users_file (f : file Roster) (w : world) : world :=
  {| user_states := user_states w; admin_users := admin_users w;
     regular_users := regular_users w; user_data := user_data w;
     job_queue := job_queue w; log_file := log_file w; users_file := f |}.

(** ** The handler monad: state, a trace of effects, and exceptions *)

Inductive outcome (A : Type) :=
| Return (a : A)
| Raise (e : Py.exn).
Arguments Return {A} a.
Arguments Raise {A} e.

Definition M (A : Type) : Type := world -> outcome A * world * list effect.

Definition ret {A} (a : A) : M A := fun w => (Return a, w, []).

Definition bind {A B} (m : M A) (k : A -> M B) : M B :=
  fun w =>
    match m w with
    | (Return a, w1, t1) =>
        match k a w1 with (r, w2, t2) => (r, w2, (t1 ++ t2)%list) end
    | (Raise e, w1, t1) => (Raise e, w1, t1)
    end.

Definition raise {A} (e : Py.exn) : M A := fun w => (Raise e, w, []).

(** [try: m  except Exception as e: h e] *)
Definition try_except {A} (m : M A) (h : Py.exn -> M A) : M A :=
  fun w =>
    match m w with
    | (Return a, w1, t1) => (Return a, w1, t1)
    | (Raise e, w1, t1) =>
        match h e w1 with (r, w2, t2) => (r, w2, (t1 ++ t2)%list) end
    end.

Definition get : M world := fun w => (Return w, w, []).
Definition modify (f : world -> world) : M unit := fun w => (Return tt, f w, []).
Definition emit (e : effect) : M unit := fun w => (Return tt, w, [e]).

(** With these instances [x ← m; k] and [m ;; k] are [bind]. *)
#[global] Instance M_ret : MRet M := @ret.
#[global] Instance M_bind : MBind M := fun A B k m => bind m k.

(** [for x in l: body x] *)
Fixpoint for_each {A} (l : list A) (body : A -> M unit) : M unit :=
  match l with
  | [] => ret tt
  | x :: r => body x ;; for_each r body
  end.

Definition state_of {A} (r : outcome A * world * list effect) : world := snd (fst r).
Definition trace_of {A} (r : outcome A * world * list effect) : list effect := snd r.
Definition outcome_of {A} (r : outcome A * world * list effect) : outcome A := fst (fst r).
Definition returns {A} (r : outcome A * world * list effect) : Prop :=
  exists a, outcome_of r = Return a.

(** ** Files *)

(** [with open(path, 'r') as f: json.load(f)] *)
Definition json_load {A} (path : string) (f : file A) : M A :=
  match f with
  | Missing =>
      raise (Py.FileNotFoundError
               ("[Errno 2] No such file or directory: '" +:+ path +:+ "'"))
  | Malformed msg => raise (Py.JSONDecodeError msg)
  | Content a => ret a
  end.

(** [d[k]] *)
Definition getitem {V} (k : string) (d : gmap string V) : M V :=
  match d !! k with
  | Some v => ret v
  | None => raise (Py.KeyError k)
  end.

(** [os.path.exists(path)] *)
Definition exists_file {A} (f : file A) : bool :=
  match f with
  | Missing => false
  | _ => true
  end.

(** ** SimpleBot *)

Definition ensure_log_file : M unit :=
  w ← get;
  if negb (exists_file (log_file w))
  then modify (set_log_file (Content ∅)) ;; emit (write log_file_name)
  else ret tt.

Definition load_users : M unit :=
  try_except
    (w ← get;
     if exists_file (users_file w) then
       data ← json_load users_file_name (users_file w);
       modify (set_admin_users (fun _ => list_to_set (admins data))) ;;
       modify (set_regular_users (fun _ => list_to_set (regular data))) ;;
       self ← get;
       emit (logger_info (Line
         ("Loaded " +:+ Py.str (Z.of_nat (size (admin_users self)))
          +:+ " admins and " +:+ Py.str (Z.of_nat (size (regular_users self)))
          +:+ " regular users")))
     else ret tt)
    (fun e => emit (logger_error (Line ("Failed to load users: " +:+ Py.str_exn e)))).

Definition save_users : M unit :=
  try_except
    (self ← get;
     let data := {| admins := elements (admin_users self);
                    regular := elements (regular_users self) |} in
     modify (set_users_file (Content data)) ;;
     emit (write users_file_name) ;;
     emit (logger_info (Line "Users saved successfully")))
    (fun e => emit (logger_error (Line ("Failed to save users: " +:+ Py.str_exn e)))).

(** The process before [SimpleBot()] runs: nothing in memory, the two files
    as they are on disk. *)
Definition blank (logs : file Logs) (users : file Roster) : world :=
  {| user_states := ∅; admin_users := ∅; regular_users := ∅; user_data := ∅;
     job_queue := []; log_file := logs; users_file := users |}.

(** [SimpleBot.__init__] *)
Definition __init__ : M unit := ensure_log_file ;; load_users.

(** What [date.today()] and [datetime.now().isoformat()] return when a
    handler runs. *)
Record Clock := { today : datetime.date; now : string }.

Definition new_day (today : string) : DailyLog.t :=
  {| DailyLog.date := today; DailyLog.total_responses := 0;
     DailyLog.yes_responses := 0; DailyLog.no_responses := 0;
     DailyLog.users := ∅; DailyLog.responses := [] |}.

Definition new_user (username : string) : PerUser.t :=
  {| PerUser.username := username; PerUser.total_responses := 0;
     PerUser.yes_count := 0; PerUser.no_count := 0 |}.

Definition log_response (clk : Clock) (user_id : Z) (username response : string)
    (timestamp : option string) : M unit :=
  let timestamp := default (now clk) timestamp in
  let today := datetime.isoformat (today clk) in
  w ← get;
  logs ← try_except (json_load log_file_name (log_file w))
           (fun e => match e with
                     | Py.JSONDecodeError _ | Py.FileNotFoundError _ => ret ∅
                     | _ => raise e
                     end);
  let logs : Logs :=
    if negb (Py.contains (Py.KStr today) logs)
    then <[today := new_day today]> logs else logs in
  d ← getitem today logs;
  let total := DailyLog.total_responses d + 1 in
  let yes := if decide (response = "yes")
             then DailyLog.yes_responses d + 1 else DailyLog.yes_responses d in
  let no := if decide (response = "yes")
            then DailyLog.no_responses d else DailyLog.no_responses d + 1 in
  let users : gmap string PerUser.t :=
    if negb (Py.contains (Py.KInt user_id) (DailyLog.users d))
    then <[Py.str user_id := new_user username]> (DailyLog.users d)
    else DailyLog.users d in
  u ← getitem (Py.str user_id) users;
  let u := {| PerUser.username := PerUser.username u;
              PerUser.total_responses := PerUser.total_responses u + 1;
              PerUser.yes_count :=
                if decide (response = "yes")
                then PerUser.yes_count u + 1 else PerUser.yes_count u;
              PerUser.no_count :=
                if decide (response = "yes")
                then PerUser.no_count u else PerUser.no_count u + 1 |} in
  let response_entry :=
    {| Response.timestamp := timestamp; Response.user_id := user_id;
       Response.username := username; Response.response := response |} in
  let d := {| DailyLog.date := DailyLog.date d;
              DailyLog.total_responses := total;
              DailyLog.yes_responses := yes;
              DailyLog.no_responses := no;
              DailyLog.users := <[Py.str user_id := u]> users;
              DailyLog.responses := (DailyLog.responses d ++ [response_entry])%list |} in
  modify (set_log_file (Content (<[today := d]> logs))) ;;
  emit (write log_file_name) ;;
  emit (logger_info (Line
    ("Logged " +:+ response +:+ " response from user " +:+ username
     +:+ " (" +:+ Py.str user_id +:+ ")"))).

Definition question_keyboard : Keyboard := [["yes"; "no"]].
Definition back_keyboard : Keyboard := [["admin_back"]].
Definition admin_menu_keyboard : Keyboard :=
  [["admin_stats"; "admin_logs"]; ["admin_users"]; ["admin_exit"]].
Definition users_keyboard : Keyboard :=
  [["user_make_admin"; "user_remove_admin"]; ["user_refresh"; "admin_back"]].
Definition prompt_keyboard : Keyboard := [["admin_users_return"]].

(** [send_question]: [from_callback] is [update.callback_query] being set. *)
Definition send_question (from_callback : bool) : M unit :=
  if from_callback
  then emit (edit_message_text Question question_keyboard)
  else emit (reply_text Question question_keyboard).

Definition start_command (user : telegram.User) : M unit :=
  let user_id := telegram.id user in
  self ← get;
  if bool_decide (user_id ∈ admin_users self) then
    emit (reply_text AdminWelcomeBack [])
  else
    modify (set_user_states <[user_id := "active"]>) ;;
    modify (set_regular_users (fun s => {[user_id]} ∪ s)) ;;
    save_users ;;
    emit (reply_text Welcome []) ;;
    send_question false.

(** The roster action of [handle_message] once the target is parsed. *)
Definition perform_action (action : string) (target_user_id : Z) : M unit :=
  if decide (action = "user_make_admin") then
    self ← get;
    (if bool_decide (target_user_id ∈ regular_users self)
     then modify (set_regular_users (fun s => s ∖ {[target_user_id]}))
     else ret tt) ;;
    modify (set_admin_users (fun s => {[target_user_id]} ∪ s)) ;;
    save_users ;;
    emit (reply_text (NowAdmin target_user_id) [])
  else if decide (action = "user_remove_admin") then
    self ← get;
    if bool_decide (target_user_id ∈ admin_users self) then
      modify (set_admin_users (fun s => s ∖ {[target_user_id]})) ;;
      modify (set_regular_users (fun s => {[target_user_id]} ∪ s)) ;;
      save_users ;;
      emit (reply_text (RemovedFromAdmins target_user_id) [])
    else
      emit (reply_text (NotAnAdmin target_user_id) [])
  else ret tt.

(** [context.user_data['pending_action']] of the user the update is from. *)
Definition pending_action (w : world) (user_id : Z) : M string :=
  match user_data w !! user_id with
  | Some a => ret a
  | None => raise (Py.KeyError "pending_action")
  end.

Definition handle_message (user : telegram.User) (text : string) : M unit :=
  let user_id := telegram.id user in
  self ← get;
  if bool_decide (user_id ∈ admin_users self)
     && bool_decide (is_Some (user_data self !! user_id))
  then
    action ← pending_action self user_id;
    modify (set_user_data (delete user_id)) ;;
    if Py.isdigit text then
      target_user_id ← (match Py.int text with
                         | inr n => ret n
                         | inl e => raise e
                         end);
      perform_action action target_user_id
    else if Py.startswith "@" text then
      emit (reply_text UsernameLookupNotImplemented [])
    else
      emit (reply_text invalid_format [])
  else if decide (text = admin_code) then
    modify (set_admin_users (fun s => {[user_id]} ∪ s)) ;;
    self ← get;
    (if bool_decide (user_id ∈ regular_users self)
     then modify (set_regular_users (fun s => s ∖ {[user_id]}))
     else ret tt) ;;
    save_users ;;
    emit (reply_text AdminAccessGranted [])
  else ret tt.

(** The [try] body shared by [stats_command] and [show_stats_inline]:
    either the day's statistics or the "no data" text. *)
Definition todays_stats (clk : Clock) (inline : bool) : M message :=
  self ← get;
  logs ← json_load log_file_name (log_file self);
  let today := datetime.isoformat (today clk) in
  if negb (Py.contains (Py.KStr today) logs) then ret no_data_today
  else
    stats ← getitem today logs;
    ret (StatsText inline stats).

Definition show_stats_inline (clk : Clock) : M unit :=
  try_except
    (stats_text ← todays_stats clk true;
     emit (edit_message_text stats_text back_keyboard))
    (fun e => emit (edit_message_text (error_getting_stats e) back_keyboard)).

Definition stats_command (clk : Clock) (user : telegram.User) : M unit :=
  let user_id := telegram.id user in
  self ← get;
  if negb (bool_decide (user_id ∈ admin_users self)) then
    emit (reply_text not_available [])
  else
    try_except
      (stats_text ← todays_stats clk false;
       emit (reply_text stats_text []))
      (fun e => emit (reply_text (error_getting_stats e) [])).

(** Python's order on [str]: lexicographic on code points. *)
Definition str_le (a b : string) : Prop := String.leb a b = true.
Definition str_ge (a b : string) : Prop := str_le b a.

#[global] Instance str_ge_dec : RelDecision str_ge.
Proof. intros a b. unfold str_ge, str_le. apply _. Defined.

(** [sorted(l, reverse=True)] *)
Definition sorted_reverse (l : list string) : list string := merge_sort str_ge l.

(** [logs.keys()] *)
Definition keys {V} (d : gmap string V) : list string := (map_to_list d).*1.

(** [sorted(logs.keys(), reverse=True)[:10]] *)
Definition listed_dates (logs : Logs) : list string :=
  take 10 (sorted_reverse (keys logs)).

(** The loop of [logs_command] and [show_logs_inline], collecting for each
    listed date the counters it prints. *)
Fixpoint log_rows (logs : Logs) (dates : list string) : M (list (string * DailyLog.t)) :=
  match dates with
  | [] => ret []
  | date_str :: rest =>
      stats ← getitem date_str logs;
      rows ← log_rows logs rest;
      ret ((date_str, stats) :: rows)
  end.

(** The [try] body shared by [logs_command] and [show_logs_inline]. *)
Definition available_dates (inline : bool) : M message :=
  self ← get;
  logs ← json_load log_file_name (log_file self);
  if bool_decide (logs = ∅) then ret no_logs
  else
    rows ← log_rows logs (listed_dates logs);
    ret (LogsText inline rows).

Definition show_logs_inline : M unit :=
  try_except
    (dates_text ← available_dates true;
     emit (edit_message_text dates_text back_keyboard))
    (fun e => emit (edit_message_text (error_getting_logs e) back_keyboard)).

Definition logs_command (user : telegram.User) : M unit :=
  let user_id := telegram.id user in
  self ← get;
  if negb (bool_decide (user_id ∈ admin_users self)) then
    emit (reply_text not_available [])
  else
    try_except
      (dates_text ← available_dates false;
       emit (reply_text dates_text []))
      (fun e => emit (reply_text (error_getting_logs e) [])).

(** The body of [exit_command] and of the [admin_exit] button once the
    user is known to be an admin. *)
Definition leave_admins (user_id : Z) : M unit :=
  modify (set_admin_users (fun s => s ∖ {[user_id]})) ;;
  modify (set_regular_users (fun s => {[user_id]} ∪ s)) ;;
  save_users.

Definition exit_command (user : telegram.User) : M unit :=
  let user_id := telegram.id user in
  self ← get;
  if negb (bool_decide (user_id ∈ admin_users self)) then
    emit (reply_text not_in_admin_mode [])
  else
    leave_admins user_id ;;
    emit (reply_text ExitedAdminMode []).

Definition build_admin_menu : message * Keyboard := (AdminMenu, admin_menu_keyboard).

(** [build_users_list]: a log file that cannot be read counts as empty. *)
Definition build_users_list : M (message * Keyboard) :=
  self ← get;
  logs ← try_except (json_load log_file_name (log_file self)) (fun _ => ret ∅);
  ret (UsersList logs (admin_users self) (regular_users self), users_keyboard).

(** [show_users_list]: [from_command] is [isinstance(query_or_update, Update)].
    Sends succeed in this model, so the [except telegram.error.BadRequest]
    branch around [edit_message_text] is not reached. *)
Definition show_users_list (from_command : bool) : M unit :=
  built ← build_users_list;
  if from_command
  then emit (reply_text built.1 built.2)
  else emit (edit_message_text built.1 built.2).

Definition admin_command (user : telegram.User) : M unit :=
  let user_id := telegram.id user in
  self ← get;
  if negb (bool_decide (user_id ∈ admin_users self)) then
    emit (reply_text not_available [])
  else
    emit (reply_text build_admin_menu.1 build_admin_menu.2).

Definition users_command (user : telegram.User) : M unit :=
  let user_id := telegram.id user in
  self ← get;
  if negb (bool_decide (user_id ∈ admin_users self)) then
    emit (reply_text not_available [])
  else
    show_users_list true.

Definition nl : string := String (ascii_of_nat 10) EmptyString.
Definition rule50 : string := "==================================================".

(** [f"@{user.username}" if user.username else f"User ID: {user.id}"] *)
Definition user_info (user : telegram.User) : string :=
  if Py.truthy (telegram.username user)
  then "@" +:+ default "" (telegram.username user)
  else "User ID: " +:+ Py.str (telegram.id user).

Definition handle_yes_choice (clk : Clock) (user : telegram.User) : M unit :=
  let user_info := user_info user in
  log_response clk (telegram.id user) user_info "yes" None ;;
  emit (edit_message_text Thanks []) ;;
  let admin_message := AdminNotification user_info user in
  try_except
    (self ← get;
     if negb (bool_decide (admin_users self = ∅)) then
       for_each (elements (admin_users self)) (fun admin_id =>
         try_except
           (emit (send_message admin_id admin_message []) ;;
            emit (logger_info (Line ("Admin notification sent to " +:+ Py.str admin_id))))
           (fun e => emit (logger_error (Line
              ("Failed to send notification to admin " +:+ Py.str admin_id
               +:+ ": " +:+ Py.str_exn e)))))
     else
       emit (logger_info (LineWith "ADMIN NOTIFICATION (no admins set): " admin_message)) ;;
       emit (print (Line (nl +:+ rule50))) ;;
       emit (print (Line "ADMIN NOTIFICATION:")) ;;
       emit (print (LineWith "" admin_message)) ;;
       emit (print (Line "No admin users found. Use /startadmin to become an admin.")) ;;
       emit (print (Line (rule50 +:+ nl))))
    (fun e =>
       emit (logger_error (Line ("Failed to send admin notification: " +:+ Py.str_exn e))) ;;
       emit (logger_info (LineWith "ADMIN NOTIFICATION (fallback): " admin_message))).

(** [context.job_queue.run_once(callback, when, chat_id, name)]: the queue
    gains one job; jobs already queued under the same name stay. *)
Definition run_once (when : Z) (chat_id : Z) (name : string) : M unit :=
  modify (set_job_queue (fun q =>
    (q ++ [{| name := name; when := when; chat_id := chat_id |}])%list)).

Definition handle_no_choice (clk : Clock) (user : telegram.User) : M unit :=
  let user_info := user_info user in
  log_response clk (telegram.id user) user_info "no" None ;;
  emit (edit_message_text AskAgainLater []) ;;
  run_once 900 (telegram.id user) ("delayed_question_" +:+ Py.str (telegram.id user)).

Definition send_delayed_question (job : Job) : M unit :=
  emit (send_message (chat_id job) Question question_keyboard).

Definition send_daily_message : M unit :=
  emit (logger_info (Line "Sending daily messages...")) ;;
  self ← get;
  for_each (elements (regular_users self)) (fun user_id =>
    try_except
      (emit (send_message user_id Question question_keyboard) ;;
       emit (logger_info (Line ("Daily message sent to user " +:+ Py.str user_id))))
      (fun e => emit (logger_error (Line
         ("Failed to send daily message to user " +:+ Py.str user_id
          +:+ ": " +:+ Py.str_exn e))))).

(** [handle_callback]. Sends succeed in this model, so the
    [except telegram.error.BadRequest] branch of ["admin_back"] is not
    reached. *)
Definition handle_callback (clk : Clock) (user : telegram.User) (data : string) : M unit :=
  emit (answer None) ;;
  let user_id := telegram.id user in
  self ← get;
  (if negb (bool_decide (is_Some (user_states self !! user_id)))
   then modify (set_user_states <[user_id := "active"]>)
   else ret tt) ;;
  if decide (data = "admin_back") then
    emit (edit_message_text build_admin_menu.1 build_admin_menu.2)
  else if decide (data = "admin_stats") then show_stats_inline clk
  else if decide (data = "admin_logs") then show_logs_inline
  else if decide (data = "admin_users") then show_users_list false
  else if decide (data = "admin_exit") then
    self ← get;
    if bool_decide (user_id ∈ admin_users self) then
      leave_admins user_id ;;
      emit (edit_message_text ExitedAdminMode [])
    else ret tt
  else if decide (data = "user_refresh") then
    emit (answer (Some "Refreshing...")) ;;
    show_users_list false
  else if decide (data = "user_make_admin" \/ data = "user_remove_admin") then
    emit (edit_message_text (ActionPrompt data) prompt_keyboard) ;;
    modify (set_user_data <[user_id := data]>)
  else if decide (data = "admin_users_return") then
    self ← get;
    (if bool_decide (is_Some (user_data self !! user_id))
     then modify (set_user_data (delete user_id))
     else ret tt) ;;
    show_users_list false
  else if decide (data = "yes") then handle_yes_choice clk user
  else if decide (data = "no") then handle_no_choice clk user
  else ret tt.

(** ** The application: what [main] registers *)

Inductive update :=
| Command (command : string) (user : telegram.User)
| TextMessage (user : telegram.User) (text : string)
| CallbackQuery (user : telegram.User) (data : string)
| DelayedQuestionDue (i : nat)
| DailyMessageDue
| Restart.

(** One update handled at time [clk]. A command without a handler and a
    job index past the queue are ignored; a job that comes due leaves the
    queue; a restart runs [SimpleBot()] again on the files, with a new
    application (no [user_data], no jobs). *)
Definition dispatch (clk : Clock) (u : update) : M unit :=
  match u with
  | Command command user =>
      if decide (command = "start") then start_command user
      else if decide (command = "admin") then admin_command user
      else if decide (command = "stats") then stats_command clk user
      else if decide (command = "logs") then logs_command user
      else if decide (command = "users") then users_command user
      else if decide (command = "exit") then exit_command user
      else ret tt
  | TextMessage user text => handle_message user text
  | CallbackQuery user data => handle_callback clk user data
  | DelayedQuestionDue i =>
      w ← get;
      match job_queue w !! i with
      | Some job =>
          modify (set_job_queue (fun q => (take i q ++ drop (S i) q)%list)) ;;
          send_delayed_question job
      | None => ret tt
      end
  | DailyMessageDue => send_daily_message
  | Restart =>
      w ← get;
      modify (fun _ => blank (log_file w) (users_file w)) ;;
      __init__
  end.

(** The state after a sequence of updates; a handler that raises leaves the
    state as it was when the exception left it. *)
Fixpoint run (w : world) (us : list (Clock * update)) : world :=
  match us with
  | [] => w
  | (clk, u) :: rest => run (state_of (dispatch clk u w)) rest
  end.

(** First launch: [SimpleBot()] with no file on disk. *)
Definition first_launch : world := state_of (__init__ (blank Missing Missing)).

(** * Vocabulary of the properties *)

(** ** The response log: what [log_response] writes *)

(** The logs [log_response] starts from: an unreadable file counts as [{}]. *)
Definition loaded (f : file Logs) : Logs :=
  match f with
  | Content logs => logs
  | _ => ∅
  end.

Definition bump_user (response : string) (u : PerUser.t) : PerUser.t :=
  {| PerUser.username := PerUser.username u;
     PerUser.total_responses := PerUser.total_responses u + 1;
     PerUser.yes_count :=
       if decide (response = "yes") then PerUser.yes_count u + 1 else PerUser.yes_count u;
     PerUser.no_count :=
       if decide (response = "yes") then PerUser.no_count u else PerUser.no_count u + 1 |}.

(** The day's entry after one more response: the per-user entry is rebuilt
    from [new_user] on every call, because the [int] key [user_id] is never
    found among the [str] keys of ['users']. *)
Definition recorded (timestamp : string) (user_id : Z) (username response : string)
    (d : DailyLog.t) : DailyLog.t :=
  {| DailyLog.date := DailyLog.date d;
     DailyLog.total_responses := DailyLog.total_responses d + 1;
     DailyLog.yes_responses :=
       if decide (response = "yes")
       then DailyLog.yes_responses d + 1 else DailyLog.yes_responses d;
     DailyLog.no_responses :=
       if decide (response = "yes")
       then DailyLog.no_responses d else DailyLog.no_responses d + 1;
     DailyLog.users :=
       <[Py.str user_id := bump_user response (new_user username)]> (DailyLog.users d);
     DailyLog.responses :=
       (DailyLog.responses d ++
        [{| Response.timestamp := timestamp; Response.user_id := user_id;
            Response.username := username; Response.response := response |}])%list |}.

Definition logs_after (clk : Clock) (user_id : Z) (username response : string)
    (timestamp : option string) (f : file Logs) : Logs :=
  let today := datetime.isoformat (today clk) in
  <[today := recorded (default (now clk) timestamp) user_id username response
               (default (new_day today) (loaded f !! today))]> (loaded f).

(** [sum(u['total_responses'] for u in day['users'].values())] *)
Definition sum_user_totals (d : DailyLog.t) : Z :=
  map_fold (fun _ u acc => PerUser.total_responses u + acc) 0 (DailyLog.users d).

(** ** The roster *)

Definition roster_disjoint (w : world) : Prop := admin_users w ## regular_users w.

(** The same for the roster a restart would load from bot_users.json. *)
Definition file_disjoint (f : file Roster) : Prop :=
  match f with
  | Content r => (list_to_set (admins r) : gset Z) ## list_to_set (regular r)
  | _ => True
  end.

Definition roster_inv (w : world) : Prop :=
  roster_disjoint w /\ file_disjoint (users_file w).

(** The handlers below touch neither the roster nor bot_users.json. *)
Definition same_roster (w w' : world) : Prop :=
  admin_users w' = admin_users w /\ regular_users w' = regular_users w
  /\ users_file w' = users_file w.

(** ** Invariants through a handler *)

(** [m] keeps [P]: from a state in [P] it ends, returning or raising, in a
    state in [P]. *)
Definition preserves (P : world -> Prop) {A} (m : M A) : Prop :=
  forall w, P w -> P (state_of (m w)).

(** ** Pending roster actions and replies *)

(** The replies with which [handle_message] ends a roster action. *)
Definition is_action_reply (e : effect) : bool :=
  match e with
  | reply_text (NowAdmin _) _
  | reply_text (RemovedFromAdmins _) _
  | reply_text (NotAnAdmin _) _ => true
  | _ => false
  end.

Definition action_replies (t : list effect) : nat :=
  length (List.filter is_action_reply t).

(** Consecutive text messages of one user: the final state and the whole
    trace. *)
Fixpoint handle_messages (user : telegram.User) (texts : list string) (w : world)
    : world * list effect :=
  match texts with
  | [] => (w, [])
  | text :: rest =>
      let r := handle_message user text w in
      let r' := handle_messages user rest (state_of r) in
      (r'.1, (trace_of r ++ r'.2)%list)
  end.

Definition is_send_message (e : effect) : bool :=
  match e with
  | send_message _ _ _ => true
  | _ => false
  end.

(** ** Refusals and failed reads *)

(** The command is refused: the handler returns, the state is untouched
    and the only effect is the reply [text]. *)
Definition refused_with (text : message) (clk : Clock) (command : string)
    (user : telegram.User) (w : world) : Prop :=
  dispatch clk (Command command user) w = (Return tt, w, [reply_text text []]).

(** The reading under which every admin-only command, /exit included,
    answers "This command is not available.". *)
Definition refused_as_not_available (clk : Clock) (command : string)
    (user : telegram.User) (w : world) : Prop :=
  telegram.id user ∉ admin_users w ->
  command ∈ ["admin"; "stats"; "logs"; "users"; "exit"] ->
  refused_with not_available clk command user w.

(** The exception [json_load] raises on the log file, if any. *)
Definition read_error (f : file Logs) : option Py.exn :=
  match f with
  | Missing =>
      Some (Py.FileNotFoundError
              ("[Errno 2] No such file or directory: '" +:+ log_file_name +:+ "'"))
  | Malformed msg => Some (Py.JSONDecodeError msg)
  | Content _ => None
  end.

(** The reading under which a failed read is answered by the "no data"
    text. *)
Definition no_data_on_read_failure (clk : Clock) (user : telegram.User) (w : world) : Prop :=
  telegram.id user ∈ admin_users w ->
  is_Some (read_error (log_file w)) ->
  trace_of (stats_command clk user w) = [reply_text no_data_today []]
  /\ trace_of (show_stats_inline clk w) = [edit_message_text no_data_today back_keyboard].

(** ** Re-ask reminders *)

(** The queued re-asks addressed to a user. *)
Definition reminders_for (user_id : Z) (w : world) : list Job :=
  List.filter (fun job => bool_decide (chat_id job = user_id)) (job_queue w).

(** The reading under which a user never has two re-asks queued. *)
Definition at_most_one_reminder (user_id : Z) (w : world) : Prop :=
  (length (reminders_for user_id w) <= 1)%nat.

(** ** Order on strings *)

(** Strictly below, in Python's order on [str]. *)
Definition str_lt (a b : string) : Prop := String.compare a b = Lt.

Definition comparison_eqb (c1 c2 : comparison) : bool :=
  match c1, c2 with
  | Eq, Eq | Lt, Lt | Gt, Gt => true
  | _, _ => false
  end.

(** ** Sample runs *)

Definition noon : Clock :=
  {| today := {| datetime.year := 2024; datetime.month := 3; datetime.day := 9 |};
     now := "2024-03-09T12:00:00" |}.

Definition user_111 : telegram.User :=
  {| telegram.id := 111; telegram.username := Some "alice";
     telegram.first_name := "Alice"; telegram.last_name := None |}.

Definition user_222 : telegram.User :=
  {| telegram.id := 222; telegram.username := None;
     telegram.first_name := "Bob"; telegram.last_name := Some "B" |}.

(** 222 has become an admin with the code and pressed "Make Admin". *)
Definition prompted : world :=
  run first_launch
    [(noon, Command "start" user_111);
     (noon, TextMessage user_222 "Admin2024");
     (noon, CallbackQuery user_222 "user_make_admin")].

(** The same, with "Remove Admin" pressed instead. *)
Definition removal_prompted : world :=
  run first_launch
    [(noon, Command "start" user_111);
     (noon, TextMessage user_222 "Admin2024");
     (noon, CallbackQuery user_222 "user_remove_admin")].

(** The state [prompted] after bot_logs.json has been removed. *)
Definition log_removed : world := set_log_file Missing prompted.

(** User 111 registers and answers "no" twice before any timer fires. *)
Definition two_noes : world :=
  run first_launch
    [(noon, Command "start" user_111);
     (noon, CallbackQuery user_111 "no");
     (noon, CallbackQuery user_111 "no")].

(** User 111 registers, answers "no" and later the same day "yes". *)
Definition no_then_yes : world :=
  run first_launch
    [(noon, Command "start" user_111);
     (noon, CallbackQuery user_111 "no");
     (noon, CallbackQuery user_111 "yes")].

(** The same run before the "yes". *)
Definition one_no : world :=
  run first_launch
    [(noon, Command "start" user_111);
     (noon, CallbackQuery user_111 "no")].

Definition on_day (d : Z) : Clock :=
  {| today := {| datetime.year := 2024; datetime.month := 3; datetime.day := d |};
     now := "2024-03-" +:+ datetime.pad2 d +:+ "T12:00:00" |}.

(** User 111 answers on twelve days in a row, then 222 becomes an admin. *)
Definition twelve_days : world :=
  run first_launch
    ((noon, Command "start" user_111)
     :: ((fun d => (on_day d, CallbackQuery user_111 "yes")) <$> seqZ 1 12)
     ++ [(noon, TextMessage user_222 "Admin2024")])%list.

Definition twelve_days_logs : Logs := loaded (log_file twelve_days).

(** ** Known users, the saved roster, consistent logs *)

(** Every user the roster holds, whatever the role. *)
Definition known_users (w : world) : gset Z := admin_users w ∪ regular_users w.

(** bot_users.json holds the roster that is in memory; before the first
    [save_users] there is no file and the roster is empty. *)
Definition roster_saved (w : world) : Prop :=
  match users_file w with
  | Missing => admin_users w = ∅ /\ regular_users w = ∅
  | Malformed _ => False
  | Content r =>
      list_to_set (admins r) = admin_users w /\ list_to_set (regular r) = regular_users w
  end.

(** The number of events of a day with the given answer. *)
Definition answers (response : string) (d : DailyLog.t) : Z :=
  Z.of_nat (length (List.filter (fun r => bool_decide (Response.response r = response))
                      (DailyLog.responses d))).

(** A day's entry filed under its own date whose counters count its
    events: the total all of them, the yes counter those answering "yes",
    the no counter the others. *)
Definition day_consistent (key : string) (d : DailyLog.t) : Prop :=
  DailyLog.date d = key
  /\ DailyLog.total_responses d = Z.of_nat (length (DailyLog.responses d))
  /\ DailyLog.yes_responses d = answers "yes" d
  /\ DailyLog.total_responses d = DailyLog.yes_responses d + DailyLog.no_responses d.

Definition logs_consistent (f : file Logs) : Prop :=
  forall key d, loaded f !! key = Some d -> day_consistent key d.

(** Every per-user entry of the log counts exactly one response. *)
Definition single_response (u : PerUser.t) : Prop :=
  PerUser.total_responses u = 1
  /\ ((PerUser.yes_count u = 1 /\ PerUser.no_count u = 0)
      \/ (PerUser.yes_count u = 0 /\ PerUser.no_count u = 1)).

Definition user_entries_single (f : file Logs) : Prop :=
  forall key d k u, loaded f !! key = Some d -> DailyLog.users d !! k = Some u ->
                    single_response u.

(** ** The state changes of the bot *)

(** The three moves of the roster: a user who is not an admin registers as
    a regular user, a user becomes an admin, an admin becomes a regular
    user. *)
Inductive roster_move (A R : gset Z) : gset Z -> gset Z -> Prop :=
| move_register (u : Z) : u ∉ A -> roster_move A R A ({[u]} ∪ R)
| move_promote (u : Z) : roster_move A R ({[u]} ∪ A) (R ∖ {[u]})
| move_demote (u : Z) : u ∈ A -> roster_move A R (A ∖ {[u]}) ({[u]} ∪ R).

(** The roster [A], [R] put in memory and written to bot_users.json. *)
Definition with_roster (A R : gset Z) (w : world) : world :=
  set_users_file (Content {| admins := elements A; regular := elements R |})
    (set_regular_users (fun _ => R) (set_admin_users (fun _ => A) w)).

(** One change of the state: a change of [user_states], of the pending
    actions or of the job queue; one response recorded in the log file; one
    move of the roster together with its save; or a restart. *)
Inductive change (w : world) : world -> Prop :=
| change_user_states f : change w (set_user_states f w)
| change_user_data f : change w (set_user_data f w)
| change_job_queue f : change w (set_job_queue f w)
| change_log clk user_id username response timestamp :
    change w (set_log_file
                (Content (logs_after clk user_id username response timestamp (log_file w))) w)
| change_roster A R :
    roster_move (admin_users w) (regular_users w) A R -> change w (with_roster A R w)
| change_restart :
    change w (state_of (__init__ (blank (log_file w) (users_file w)))).

(** ** Running handlers *)

Ltac mred :=
  cbv [mbind M_bind bind mret M_ret ret get modify emit raise try_except
       state_of trace_of outcome_of returns] in *.

Ltac msplit :=
  match goal with
  | |- context [@bool_decide ?P ?d] => destruct (@bool_decide_reflect P d)
  | |- context [@decide ?P ?d] => destruct (@decide P d)
  end.

Ltac mrun := repeat (mred; cbn [fst snd negb andb orb]; try msplit).

(** In a chain of [if data == "..."] on a literal [data]: drop the tests
    that fail and take the one that holds. *)
Ltac pick_branch :=
  repeat match goal with
         | |- context [@decide ?P ?d] =>
             destruct (@decide P d) as [Hc|Hc];
             [exfalso; first [discriminate Hc | destruct Hc as [Hc|Hc]; discriminate Hc]
             |clear Hc]
         end;
  rewrite decide_True by reflexivity.

Ltac roster_solve :=
  cbv [roster_inv roster_disjoint file_disjoint] in *;
  cbn [admin_users regular_users users_file set_users_file set_admin_users
       set_regular_users set_user_states set_user_data set_job_queue set_log_file
       admins regular blank fst snd] in *;
  rewrite ?list_to_set_elements_L in *;
  try (destruct_and?; split_and?; try done; set_solver).

(** * Properties *)

(** ** Python values and dates: examples *)

Example isdigit_333 : Py.isdigit "333" = true /\ Py.int "333" = inr 333.
Proof. split; reflexivity. Qed.

Example isdigit_leading_zero : Py.int "007" = inr 7.
Proof. reflexivity. Qed.

Example str_examples : Py.str 111 = "111" /\ Py.str 0 = "0" /\ Py.str (-5) = "-5".
Proof. repeat split; vm_compute; reflexivity. Qed.

Example isoformat_example :
  datetime.isoformat {| datetime.year := 2024; datetime.month := 3; datetime.day := 9 |}
  = "2024-03-09".
Proof. reflexivity. Qed.

(** ** Running handlers *)

Lemma save_users_run (w : world) :
  save_users w =
  (Return tt,
   set_users_file (Content {| admins := elements (admin_users w);
                              regular := elements (regular_users w) |}) w,
   [write users_file_name; logger_info (Line "Users saved successfully")]).
Proof. reflexivity. Qed.

(** A loop whose body only emits effects returns and leaves the state. *)
Lemma for_each_emit_only {A} (l : list A) (body : A -> M unit) (w : world) :
  (forall x w', exists t, body x w' = (Return tt, w', t)) ->
  exists t, for_each l body w = (Return tt, w, t).
Proof.
  intros Hbody. induction l as [|x l IH]; simpl.
  - by exists [].
  - destruct (Hbody x w) as [t1 H1]. destruct IH as [t2 H2].
    exists (t1 ++ t2)%list. mred. by rewrite H1, H2.
Qed.

(** ** The response log: what [log_response] writes *)

Lemma log_response_run clk user_id username response timestamp (w : world) :
  log_response clk user_id username response timestamp w =
  (Return tt,
   set_log_file (Content (logs_after clk user_id username response timestamp (log_file w))) w,
   [write log_file_name;
    logger_info (Line ("Logged " +:+ response +:+ " response from user " +:+ username
                       +:+ " (" +:+ Py.str user_id +:+ ")"))]).
Proof.
  unfold log_response, logs_after.
  set (iso := datetime.isoformat (today clk)).
  assert (Hno : forall {V} (d : V), bool_decide (is_Some (Some d)) = true)
    by (intros; by apply bool_decide_eq_true_2).
  assert (Hnone : forall V, bool_decide (is_Some (@None V)) = false)
    by (intros; apply bool_decide_eq_false_2; by intros [? ?]).
  mred. destruct (log_file w) as [|msg|logs]; cbv [json_load loaded];
    mred; cbn [Py.contains];
    [rewrite lookup_empty| rewrite lookup_empty | destruct (logs !! iso) as [d|] eqn:Hd];
    rewrite ?Hno, ?Hnone; cbn [negb]; cbv [getitem];
    rewrite ?lookup_insert_eq, ?Hd; mred; cbn [negb]; cbv [getitem];
    rewrite ?lookup_insert_eq; mred; rewrite ?insert_insert_eq; reflexivity.
Qed.

(** ** The roster: admins and regular users stay apart *)

Lemma start_command_inv user w :
  roster_inv w -> roster_inv (state_of (start_command user w)).
Proof.
  intros H. unfold start_command, send_question, save_users. mrun; roster_solve.
Qed.

Lemma perform_action_inv action target w :
  roster_inv w -> roster_inv (state_of (perform_action action target w)).
Proof.
  intros H. unfold perform_action, save_users. mrun; roster_solve.
Qed.

Lemma handle_message_inv user text w :
  roster_inv w -> roster_inv (state_of (handle_message user text w)).
Proof.
  intros H. unfold handle_message.
  mred. destruct (bool_decide (telegram.id user ∈ admin_users w)
                  && bool_decide (is_Some (user_data w !! telegram.id user))).
  - unfold pending_action. destruct (user_data w !! telegram.id user) as [action|]; mred;
      [|exact H].
    destruct (Py.isdigit text).
    + destruct (Py.int text) as [e|target]; mred; cbn [fst snd].
      * roster_solve.
      * pose proof (perform_action_inv action target
                      (set_user_data (delete (telegram.id user)) w)) as Hp.
        unfold state_of in Hp.
        destruct (perform_action action target _) as [[r w2] t2]. cbn [fst snd] in *.
        apply Hp. roster_solve.
    + destruct (Py.startswith "@" text); mred; roster_solve.
  - unfold save_users. mrun; roster_solve.
Qed.

Lemma exit_command_inv user w :
  roster_inv w -> roster_inv (state_of (exit_command user w)).
Proof.
  intros H. unfold exit_command, leave_admins, save_users. mrun; roster_solve.
Qed.

Lemma same_roster_inv w w' : same_roster w w' -> roster_inv w -> roster_inv w'.
Proof.
  intros (Ha & Hr & Hf) [H1 H2]. unfold roster_inv, roster_disjoint.
  by rewrite Ha, Hr, Hf.
Qed.

Lemma notify_admins_run (admin_message : message) (w : world) :
  exists t,
    for_each (elements (admin_users w)) (fun admin_id =>
      try_except
        (emit (send_message admin_id admin_message []) ;;
         emit (logger_info (Line ("Admin notification sent to " +:+ Py.str admin_id))))
        (fun e => emit (logger_error (Line
           ("Failed to send notification to admin " +:+ Py.str admin_id
            +:+ ": " +:+ Py.str_exn e))))) w
    = (Return tt, w, t).
Proof. apply for_each_emit_only. intros x w'. eexists. reflexivity. Qed.

Lemma handle_yes_choice_state clk user w :
  state_of (handle_yes_choice clk user w)
  = set_log_file (Content (logs_after clk (telegram.id user) (user_info user) "yes" None
                             (log_file w))) w
  /\ returns (handle_yes_choice clk user w).
Proof.
  unfold handle_yes_choice. mred. rewrite log_response_run.
  cbn [admin_users set_log_file]. case_bool_decide; cbn [negb].
  - eauto.
  - destruct (notify_admins_run (AdminNotification (user_info user) user)
                (set_log_file (Content (logs_after clk (telegram.id user) (user_info user)
                                          "yes" None (log_file w))) w)) as [t Ht].
    cbn [admin_users set_log_file] in Ht. mred. rewrite Ht. eauto.
Qed.

Lemma handle_no_choice_state clk user w :
  state_of (handle_no_choice clk user w)
  = set_job_queue (fun q =>
      (q ++ [{| name := "delayed_question_" +:+ Py.str (telegram.id user);
                when := 900; chat_id := telegram.id user |}])%list)
      (set_log_file (Content (logs_after clk (telegram.id user) (user_info user) "no" None
                                (log_file w))) w)
  /\ returns (handle_no_choice clk user w).
Proof.
  unfold handle_no_choice, run_once. mred. rewrite log_response_run. eauto.
Qed.

Lemma send_daily_message_state w :
  state_of (send_daily_message w) = w /\ returns (send_daily_message w).
Proof.
  unfold send_daily_message. mred.
  edestruct (for_each_emit_only (elements (regular_users w))) as [t Ht];
    [|rewrite Ht; eauto].
  intros x w'. eexists. reflexivity.
Qed.

(** ** Views: handlers that only read *)

Lemma log_rows_state (logs : Logs) (dates : list string) (w : world) :
  exists r, log_rows logs dates w = (r, w, []).
Proof.
  induction dates as [|d dates IH]; simpl.
  - eexists. reflexivity.
  - mred. unfold getitem. destruct (logs !! d) as [stats|]; mred.
    + destruct IH as [r ->]. destruct r; eexists; reflexivity.
    + eexists. reflexivity.
Qed.

Lemma todays_stats_state clk inline w :
  exists r, todays_stats clk inline w = (r, w, []).
Proof.
  unfold todays_stats, json_load, getitem. mred.
  destruct (log_file w) as [|msg|logs]; mred; try (eexists; reflexivity).
  destruct (negb _); mred; [eexists; reflexivity|].
  destruct (logs !! _); mred; eexists; reflexivity.
Qed.

Lemma available_dates_state inline w :
  exists r, available_dates inline w = (r, w, []).
Proof.
  unfold available_dates, json_load. mred.
  destruct (log_file w) as [|msg|logs]; mred; try (eexists; reflexivity).
  case_bool_decide; mred; [eexists; reflexivity|].
  destruct (log_rows_state logs (listed_dates logs) w) as [r ->].
  destruct r; eexists; reflexivity.
Qed.

Lemma show_stats_inline_state clk w :
  state_of (show_stats_inline clk w) = w /\ returns (show_stats_inline clk w).
Proof.
  unfold show_stats_inline. destruct (todays_stats_state clk true w) as [r Hr].
  mred. rewrite Hr. destruct r; cbn; eauto.
Qed.

Lemma stats_command_state clk user w :
  state_of (stats_command clk user w) = w /\ returns (stats_command clk user w).
Proof.
  unfold stats_command. destruct (todays_stats_state clk false w) as [r Hr].
  mred. destruct (negb _); mred; [cbn; eauto|].
  rewrite Hr. destruct r; cbn; eauto.
Qed.

Lemma show_logs_inline_state w :
  state_of (show_logs_inline w) = w /\ returns (show_logs_inline w).
Proof.
  unfold show_logs_inline. destruct (available_dates_state true w) as [r Hr].
  mred. rewrite Hr. destruct r; cbn; eauto.
Qed.

Lemma logs_command_state user w :
  state_of (logs_command user w) = w /\ returns (logs_command user w).
Proof.
  unfold logs_command. destruct (available_dates_state false w) as [r Hr].
  mred. destruct (negb _); mred; [cbn; eauto|].
  rewrite Hr. destruct r; cbn; eauto.
Qed.

Lemma show_users_list_state from_command w :
  state_of (show_users_list from_command w) = w
  /\ returns (show_users_list from_command w).
Proof.
  unfold show_users_list, build_users_list, json_load. mred.
  destruct (log_file w), from_command; cbn; eauto.
Qed.

Lemma admin_command_state user w :
  state_of (admin_command user w) = w /\ returns (admin_command user w).
Proof. unfold admin_command. mred. destruct (negb _); cbn; eauto. Qed.

Lemma users_command_state user w :
  state_of (users_command user w) = w /\ returns (users_command user w).
Proof.
  unfold users_command. mred. destruct (negb _); mred; [cbn; eauto|].
  destruct (show_users_list_state true w) as [Hs [a Ha]]. mred.
  destruct (show_users_list true w) as [[r w2] t2]. cbn in *. subst. eauto.
Qed.

(** ** Invariants through a handler *)

Section Preserves.
Context (P : world -> Prop).

Lemma preserves_ret {A} (a : A) : preserves P (ret a).
Proof. intros w H. exact H. Qed.

Lemma preserves_emit e : preserves P (emit e).
Proof. intros w H. exact H. Qed.

Lemma preserves_get : preserves P get.
Proof. intros w H. exact H. Qed.

Lemma preserves_bind {A B} (m : M A) (k : A -> M B) :
  preserves P m -> (forall a, preserves P (k a)) -> preserves P (bind m k).
Proof.
  intros Hm Hk w H. specialize (Hm w H). unfold state_of, bind in *.
  destruct (m w) as [[[a|e] w1] t1]; cbn in *; [|exact Hm].
  specialize (Hk a w1 Hm). destruct (k a w1) as [[r w2] t2]. exact Hk.
Qed.

Lemma preserves_try {A} (m : M A) (h : Py.exn -> M A) :
  preserves P m -> (forall e, preserves P (h e)) -> preserves P (try_except m h).
Proof.
  intros Hm Hh w H. specialize (Hm w H). unfold state_of, try_except in *.
  destruct (m w) as [[[a|e] w1] t1]; cbn in *; [exact Hm|].
  specialize (Hh e w1 Hm). destruct (h e w1) as [[r w2] t2]. exact Hh.
Qed.

Lemma preserves_same {A} (m : M A) :
  (forall w, state_of (m w) = w) -> preserves P m.
Proof. intros Hm w H. by rewrite Hm. Qed.

End Preserves.

Lemma leave_admins_inv user_id : preserves roster_inv (leave_admins user_id).
Proof. intros w H. unfold leave_admins, save_users. mrun; roster_solve. Qed.

Lemma handle_callback_inv clk user data :
  preserves roster_inv (handle_callback clk user data).
Proof.
  unfold handle_callback.
  apply preserves_bind; [apply preserves_emit|intros _].
  apply preserves_bind; [apply preserves_get|intros self].
  apply preserves_bind.
  { destruct (negb _); [|apply preserves_ret]. intros w Hinv. roster_solve. }
  intros _.
  repeat (case_decide;
          [first [ apply preserves_emit
                 | apply preserves_same; intros w;
                   first [ apply show_stats_inline_state | apply show_logs_inline_state
                         | apply show_users_list_state ]
                 | idtac ] | ]).
  - apply preserves_bind; [apply preserves_get|intros self'].
    destruct (bool_decide _); [|apply preserves_ret].
    apply preserves_bind; [apply leave_admins_inv|intros _; apply preserves_emit].
  - apply preserves_bind; [apply preserves_emit|intros _].
    apply preserves_same; intros w; apply show_users_list_state.
  - apply preserves_bind; [apply preserves_emit|intros _]. intros w Hinv. roster_solve.
  - apply preserves_bind; [apply preserves_get|intros self'].
    apply preserves_bind.
    { destruct (bool_decide _); [|apply preserves_ret]. intros w Hinv. roster_solve. }
    intros _. apply preserves_same; intros w; apply show_users_list_state.
  - intros w Hinv. destruct (handle_yes_choice_state clk user w) as [-> _]. roster_solve.
  - intros w Hinv. destruct (handle_no_choice_state clk user w) as [-> _]. roster_solve.
  - apply preserves_ret.
Qed.

Lemma init_inv (logs : file Logs) (users : file Roster) :
  file_disjoint users -> roster_inv (state_of (__init__ (blank logs users))).
Proof.
  intros H. unfold __init__, ensure_log_file, load_users, json_load.
  destruct logs, users as [| |r]; mred; cbn; roster_solve.
Qed.

Lemma dispatch_inv clk u : preserves roster_inv (dispatch clk u).
Proof.
  destruct u as [command user|user text|user data|i| |]; cbn [dispatch].
  - repeat case_decide.
    + intros w. apply start_command_inv.
    + apply preserves_same. intros w. apply admin_command_state.
    + apply preserves_same. intros w. apply stats_command_state.
    + apply preserves_same. intros w. apply logs_command_state.
    + apply preserves_same. intros w. apply users_command_state.
    + intros w. apply exit_command_inv.
    + apply preserves_ret.
  - intros w. apply handle_message_inv.
  - apply handle_callback_inv.
  - apply preserves_bind; [apply preserves_get|intros w0].
    destruct (job_queue w0 !! i) as [job|]; [|apply preserves_ret].
    apply preserves_bind; [|intros _; apply preserves_emit].
    intros w Hinv. roster_solve.
  - apply preserves_same. intros w. apply send_daily_message_state.
  - intros w Hinv. mred. cbn [fst snd].
    pose proof (init_inv (log_file w) (users_file w) (proj2 Hinv)) as Hi.
    unfold state_of in Hi.
    destruct (__init__ (blank (log_file w) (users_file w))) as [[r w2] t2]. exact Hi.
Qed.

Lemma run_inv (us : list (Clock * update)) (w : world) :
  roster_inv w -> roster_inv (run w us).
Proof.
  revert w. induction us as [|[clk u] us IH]; intros w H; simpl; [exact H|].
  apply IH. by apply dispatch_inv.
Qed.

Lemma first_launch_inv : roster_inv first_launch.
Proof. by apply init_inv. Qed.

(** C1. From the first launch on, whatever commands, text messages, button
    presses, timer events and restarts the bot handles (registration on
    /start, promotion by the admin code or by a pending make-admin action,
    demotion by a pending remove-admin action, /exit and the exit button
    among them), no user id is both in [admin_users] and in
    [regular_users]. *)
Theorem roster_sets_stay_disjoint (us : list (Clock * update)) (x : Z) :
  ~ (x ∈ admin_users (run first_launch us) /\ x ∈ regular_users (run first_launch us)).
Proof.
  destruct (run_inv us first_launch first_launch_inv) as [Hd _].
  unfold roster_disjoint in Hd. set_solver.
Qed.

(** ** Pending roster actions *)

Lemma action_replies_app (t1 t2 : list effect) :
  action_replies (t1 ++ t2) = (action_replies t1 + action_replies t2)%nat.
Proof. unfold action_replies. by rewrite List.filter_app, length_app. Qed.

Lemma perform_action_trace action target w :
  (action_replies (trace_of (perform_action action target w)) <= 1)%nat
  /\ user_data (state_of (perform_action action target w)) = user_data w.
Proof.
  unfold perform_action, save_users. mrun; cbn; split; (lia || reflexivity).
Qed.

(** With a pending action, the first thing [handle_message] does is to
    drop it. *)
Lemma handle_message_pending user text w :
  telegram.id user ∈ admin_users w ->
  is_Some (user_data w !! telegram.id user) ->
  user_data (state_of (handle_message user text w)) = delete (telegram.id user) (user_data w)
  /\ (action_replies (trace_of (handle_message user text w)) <= 1)%nat.
Proof.
  intros Hadmin [action Hp]. unfold handle_message, pending_action. mred.
  rewrite bool_decide_eq_true_2 by done.
  rewrite bool_decide_eq_true_2 by eauto. cbn [andb]. rewrite Hp. mred.
  destruct (Py.isdigit text).
  - destruct (Py.int text) as [e|target]; mred; cbn; [split; [done|lia]|].
    pose proof (perform_action_trace action target
                  (set_user_data (delete (telegram.id user)) w)) as [Ht Hs].
    mred. destruct (perform_action action target _) as [[r w2] t2].
    cbn in *. split; [done|lia].
  - destruct (Py.startswith "@" text); mred; cbn; (split; [done|lia]).
Qed.

(** Without a pending action, a text message starts no roster action and
    leaves [user_data] alone. *)
Lemma handle_message_idle user text w :
  user_data w !! telegram.id user = None ->
  user_data (state_of (handle_message user text w)) = user_data w
  /\ action_replies (trace_of (handle_message user text w)) = 0%nat.
Proof.
  intros Hp. unfold handle_message, save_users. mred.
  rewrite (bool_decide_eq_false_2 (is_Some _)) by (rewrite Hp; by intros [? ?]).
  rewrite andb_false_r. mrun; cbn; done.
Qed.

Lemma handle_messages_idle user texts w :
  user_data w !! telegram.id user = None ->
  action_replies (handle_messages user texts w).2 = 0%nat.
Proof.
  revert w. induction texts as [|text texts IH]; intros w Hp; [done|].
  cbn [handle_messages snd]. rewrite action_replies_app.
  destruct (handle_message_idle user text w Hp) as [Hs ->].
  rewrite IH; [done|]. by rewrite Hs.
Qed.

(** C3. When an admin holds a pending action, the next text message from
    that admin removes it whatever the text is (digits, an @handle, anything
    else, even digits [int] rejects), and over that message and any further
    text messages of the admin at most one roster action is answered. *)
Theorem pending_action_cleared_first (user : telegram.User) (text : string)
    (texts : list string) (w : world) :
  telegram.id user ∈ admin_users w ->
  is_Some (user_data w !! telegram.id user) ->
  user_data (state_of (handle_message user text w)) !! telegram.id user = None
  /\ (action_replies (handle_messages user (text :: texts) w).2 <= 1)%nat.
Proof.
  intros Hadmin Hp.
  destruct (handle_message_pending user text w Hadmin Hp) as [Hs Ht].
  assert (Hnone : user_data (state_of (handle_message user text w)) !! telegram.id user = None)
    by (rewrite Hs; apply lookup_delete_eq).
  split; [exact Hnone|].
  cbn [handle_messages snd]. rewrite action_replies_app.
  rewrite (handle_messages_idle user texts _ Hnone). lia.
Qed.

Example prompted_state :
  admin_users prompted = {[222]} /\ regular_users prompted = {[111]}
  /\ user_data prompted !! 222 = Some "user_make_admin".
Proof. split_and!; vm_compute; reflexivity. Qed.

Lemma pending_action_cleared_first_witness :
  user_data (state_of (handle_message user_222 "not an id" prompted)) !! 222 = None
  /\ (action_replies (handle_messages user_222 ["not an id"; "111"] prompted).2 <= 1)%nat.
Proof.
  apply (pending_action_cleared_first user_222 "not an id" ["111"] prompted).
  - vm_compute. reflexivity.
  - vm_compute. eexists. reflexivity.
Defined.

(** ** Removing an admin who is not one *)

Lemma int_go_isdigit (s : string) (acc n : Z) :
  Py.int_go acc s = Some n -> Py.all_chars Py.char_isdigit s = true.
Proof.
  revert acc. induction s as [|c s IH]; intros acc H; [done|].
  cbn in *. unfold Py.char_isdigit at 1. destruct (Py.char_isdecimal c); [|done].
  cbn. eauto.
Qed.

(** What [int] accepts passes the [isdigit] test before it. *)
Lemma int_isdigit (text : string) (n : Z) :
  Py.int text = inr n -> Py.isdigit text = true.
Proof.
  destruct text as [|c s]; [done|]. unfold Py.int, Py.isdigit.
  destruct (Py.int_go 0 (String c s)) eqn:H; [|done].
  intros _. by eapply int_go_isdigit.
Qed.

(** C5. An admin whose pending action is the removal of an admin sends the
    digits of an id that is not in [admin_users]: the handler returns,
    both sets and bot_users.json are as before, nothing is written (the
    only effect is the reply) and the reply says the target is not an
    admin. *)
Theorem remove_admin_of_non_admin (user : telegram.User) (text : string) (target : Z)
    (w : world) :
  telegram.id user ∈ admin_users w ->
  user_data w !! telegram.id user = Some "user_remove_admin" ->
  Py.int text = inr target ->
  target ∉ admin_users w ->
  handle_message user text w
  = (Return tt, set_user_data (delete (telegram.id user)) w,
     [reply_text (NotAnAdmin target) []])
  /\ admin_users (state_of (handle_message user text w)) = admin_users w
  /\ regular_users (state_of (handle_message user text w)) = regular_users w
  /\ users_file (state_of (handle_message user text w)) = users_file w
  /\ Forall (fun e => forall path, e <> write path) (trace_of (handle_message user text w)).
Proof.
  intros Hadmin Hp Hint Hnot.
  assert (Hrun : handle_message user text w
                 = (Return tt, set_user_data (delete (telegram.id user)) w,
                    [reply_text (NotAnAdmin target) []])).
  { unfold handle_message, pending_action. mred.
    rewrite bool_decide_eq_true_2 by done.
    rewrite bool_decide_eq_true_2 by (rewrite Hp; eauto). cbn [andb].
    rewrite Hp, (int_isdigit _ _ Hint), Hint. mred.
    unfold perform_action. mred. cbn [admin_users set_user_data].
    rewrite decide_False by done. rewrite decide_True by done. mred.
    rewrite bool_decide_eq_false_2 by done. reflexivity. }
  rewrite Hrun. split_and!; [reflexivity..|]. repeat constructor. intros path. discriminate.
Qed.

Lemma remove_admin_of_non_admin_witness :
  let w := removal_prompted in
  handle_message user_222 "111" w
  = (Return tt, set_user_data (delete 222) w, [reply_text (NotAnAdmin 111) []])
  /\ admin_users (state_of (handle_message user_222 "111" w)) = admin_users w
  /\ regular_users (state_of (handle_message user_222 "111" w)) = regular_users w
  /\ users_file (state_of (handle_message user_222 "111" w)) = users_file w
  /\ Forall (fun e => forall path, e <> write path)
       (trace_of (handle_message user_222 "111" w)).
Proof.
  apply (remove_admin_of_non_admin user_222 "111" 111 removal_prompted).
  - vm_compute. reflexivity.
  - vm_compute. reflexivity.
  - reflexivity.
  - vm_compute. discriminate.
Defined.

(** ** Commands of a user who is not an admin *)

(** /exit from a user who never was an admin: the reply is
    "You are not in admin mode.", another text. *)
Lemma exit_reply_differs :
  dispatch noon (Command "exit" user_111) first_launch
  = (Return tt, first_launch, [reply_text (Text "You are not in admin mode.") []])
  /\ ~ refused_as_not_available noon "exit" user_111 first_launch.
Proof.
  split; [vm_compute; reflexivity|].
  intros H. unfold refused_as_not_available, refused_with in H.
  assert (Hd : dispatch noon (Command "exit" user_111) first_launch
               = (Return tt, first_launch, [reply_text not_available []])).
  { apply H; [vm_compute; discriminate|]. repeat constructor. }
  apply (f_equal snd) in Hd. vm_compute in Hd. discriminate.
Qed.

(** C4, amended. For a user who is not an admin, /admin, /stats, /logs and
    /users all answer "This command is not available." and /exit answers
    "You are not in admin mode."; each of the five returns with the state
    as it was and no other effect. *)
Theorem non_admin_commands_refused (clk : Clock) (command : string)
    (user : telegram.User) (w : world) :
  telegram.id user ∉ admin_users w ->
  command ∈ ["admin"; "stats"; "logs"; "users"; "exit"] ->
  refused_with (if decide (command = "exit") then not_in_admin_mode else not_available)
    clk command user w.
Proof.
  intros Hnot Hc. unfold refused_with. rewrite !elem_of_cons, elem_of_nil in Hc.
  destruct Hc as [->|[->|[->|[->|[->|[]]]]]]; cbn [dispatch];
    repeat (case_decide; [discriminate|]); rewrite decide_True by done;
    unfold stats_command, logs_command, admin_command, users_command, exit_command;
    mred; rewrite bool_decide_eq_false_2 by done; reflexivity.
Qed.

Lemma non_admin_commands_refused_witness :
  refused_with not_in_admin_mode noon "exit" user_111 prompted
  /\ refused_with not_available noon "stats" user_111 prompted.
Proof.
  split.
  - apply (non_admin_commands_refused noon "exit" user_111 prompted).
    + vm_compute. discriminate.
    + repeat constructor.
  - apply (non_admin_commands_refused noon "stats" user_111 prompted).
    + vm_compute. discriminate.
    + repeat constructor.
Defined.

(** ** Statistics when the log cannot be read *)

(** /stats from admin 222 with the log file gone: the reply carries the
    text of the exception. *)
Lemma stats_reply_discloses_error :
  stats_command noon user_222 log_removed
  = (Return tt, log_removed,
     [reply_text
        (Text "Error getting stats: [Errno 2] No such file or directory: 'bot_logs.json'")
        []])
  /\ ~ no_data_on_read_failure noon user_222 log_removed.
Proof.
  split; [vm_compute; reflexivity|].
  intros H. destruct H as [H _].
  - vm_compute. reflexivity.
  - vm_compute. eauto.
  - vm_compute in H. discriminate.
Qed.

(** C7, amended. When the log file is missing or does not parse, the
    inline statistics view (of whoever presses the button) and /stats of
    an admin catch the exception and return; the state is untouched and the
    one message sent is "Error getting stats: " followed by the text of the
    exception, which is not the "no data" text. /stats of a user who is
    not an admin is refused as ever. *)
Theorem stats_read_failure_reported (clk : Clock) (user : telegram.User) (w : world)
    (e : Py.exn) :
  read_error (log_file w) = Some e ->
  show_stats_inline clk w
  = (Return tt, w, [edit_message_text (error_getting_stats e) back_keyboard])
  /\ stats_command clk user w
     = (Return tt, w,
        [reply_text (if bool_decide (telegram.id user ∈ admin_users w)
                     then error_getting_stats e else not_available) []])
  /\ error_getting_stats e <> no_data_today.
Proof.
  intros He. unfold stats_command, show_stats_inline, todays_stats, json_load.
  split_and!.
  - mred. destruct (log_file w) as [|msg|logs]; cbn in He; simplify_eq; mred; done.
  - mred. case_bool_decide; cbn [negb]; [|done].
    destruct (log_file w) as [|msg|logs]; cbn in He; simplify_eq; mred; done.
  - unfold error_getting_stats, no_data_today. intros H. injection H as H.
    discriminate H.
Qed.

Lemma stats_read_failure_reported_witness :
  (show_stats_inline noon (set_log_file Missing first_launch)
   = (Return tt, set_log_file Missing first_launch,
      [edit_message_text (error_getting_stats
         (Py.FileNotFoundError "[Errno 2] No such file or directory: 'bot_logs.json'"))
         back_keyboard])
   /\ stats_command noon user_111 (set_log_file Missing first_launch)
      = (Return tt, set_log_file Missing first_launch,
         [reply_text (if bool_decide (telegram.id user_111
                                      ∈ admin_users (set_log_file Missing first_launch))
                      then error_getting_stats
                             (Py.FileNotFoundError
                                "[Errno 2] No such file or directory: 'bot_logs.json'")
                      else not_available) []])
   /\ error_getting_stats
        (Py.FileNotFoundError "[Errno 2] No such file or directory: 'bot_logs.json'")
      <> no_data_today)
  /\ (show_stats_inline noon log_removed
      = (Return tt, log_removed,
         [edit_message_text (error_getting_stats
            (Py.FileNotFoundError "[Errno 2] No such file or directory: 'bot_logs.json'"))
            back_keyboard])
      /\ stats_command noon user_222 log_removed
         = (Return tt, log_removed,
            [reply_text (if bool_decide (telegram.id user_222 ∈ admin_users log_removed)
                         then error_getting_stats
                                (Py.FileNotFoundError
                                   "[Errno 2] No such file or directory: 'bot_logs.json'")
                         else not_available) []])
      /\ error_getting_stats
           (Py.FileNotFoundError "[Errno 2] No such file or directory: 'bot_logs.json'")
         <> no_data_today).
Proof.
  split.
  - apply (stats_read_failure_reported noon user_111 (set_log_file Missing first_launch)).
    reflexivity.
  - apply (stats_read_failure_reported noon user_222 log_removed). reflexivity.
Defined.

(** ** A "yes" when nobody is an admin *)

(** C8. A user presses "yes" while [admin_users] is empty: the handler
    returns, no effect of the run is a [send_message], and the notification
    text is passed to [logger.info] (and printed). *)
Theorem yes_without_admins_is_logged (clk : Clock) (user : telegram.User) (w : world) :
  admin_users w = ∅ ->
  returns (handle_callback clk user "yes" w)
  /\ List.filter is_send_message (trace_of (handle_callback clk user "yes" w)) = []
  /\ logger_info (LineWith "ADMIN NOTIFICATION (no admins set): "
                    (AdminNotification (user_info user) user))
     ∈ trace_of (handle_callback clk user "yes" w)
  /\ print (LineWith "" (AdminNotification (user_info user) user))
     ∈ trace_of (handle_callback clk user "yes" w).
Proof.
  intros Hempty. unfold handle_callback. mred.
  assert (Hyes : forall w', admin_users w' = ∅ ->
            exists w'' t, handle_yes_choice clk user w' = (Return tt, w'', t)
              /\ List.filter is_send_message t = []
              /\ logger_info (LineWith "ADMIN NOTIFICATION (no admins set): "
                                (AdminNotification (user_info user) user)) ∈ t
              /\ print (LineWith "" (AdminNotification (user_info user) user)) ∈ t).
  { intros w' Hw'. unfold handle_yes_choice. mred. rewrite log_response_run.
    cbn [admin_users set_log_file]. rewrite bool_decide_eq_true_2 by done. cbn [negb].
    do 2 eexists. split; [reflexivity|]. cbn.
    split; [reflexivity|]. rewrite !elem_of_cons. naive_solver. }
  pick_branch.
  destruct (negb _); mred; cbn [fst snd];
    [destruct (Hyes (set_user_states <[telegram.id user:="active"]> w) Hempty)
       as (w'' & t & -> & Hf & Hl & Hp)
    |destruct (Hyes w Hempty) as (w'' & t & -> & Hf & Hl & Hp)];
    cbn; rewrite Hf; (split; [eauto|]); (split; [done|]);
    rewrite !elem_of_cons; naive_solver.
Qed.

Lemma yes_without_admins_is_logged_witness :
  returns (handle_callback noon user_111 "yes" first_launch)
  /\ List.filter is_send_message (trace_of (handle_callback noon user_111 "yes" first_launch))
     = []
  /\ logger_info (LineWith "ADMIN NOTIFICATION (no admins set): "
                    (AdminNotification (user_info user_111) user_111))
     ∈ trace_of (handle_callback noon user_111 "yes" first_launch)
  /\ print (LineWith "" (AdminNotification (user_info user_111) user_111))
     ∈ trace_of (handle_callback noon user_111 "yes" first_launch).
Proof.
  apply (yes_without_admins_is_logged noon user_111 first_launch).
  vm_compute. reflexivity.
Defined.

(** ** Re-ask reminders *)

(** Both re-asks are queued, under the same name. *)
Lemma second_no_stacks_a_reminder :
  job_queue two_noes
  = [{| name := "delayed_question_111"; when := 900; chat_id := 111 |};
     {| name := "delayed_question_111"; when := 900; chat_id := 111 |}]
  /\ ~ at_most_one_reminder 111 two_noes.
Proof.
  split; [vm_compute; reflexivity|].
  unfold at_most_one_reminder. vm_compute. intros H.
  repeat match goal with H : le _ _ |- _ => inversion H; clear H end.
Qed.

Lemma handle_callback_no clk user w :
  job_queue (state_of (handle_callback clk user "no" w))
  = (job_queue w ++ [{| name := "delayed_question_" +:+ Py.str (telegram.id user);
                       when := 900; chat_id := telegram.id user |}])%list.
Proof.
  unfold handle_callback. mred.
  pick_branch.
  destruct (negb _); mred; cbn [fst snd];
    match goal with
    | |- context [handle_no_choice clk user ?w'] =>
        pose proof (handle_no_choice_state clk user w') as [Hs _];
        unfold state_of in Hs;
        destruct (handle_no_choice clk user w') as [[r w2] t2]
    end; cbn in *; by subst.
Qed.

(** C6, amended. Every "no" puts one more one-shot re-ask (900 seconds,
    named after the user) at the end of the job queue and leaves the jobs
    already queued where they are, those of the same user included: the
    number of re-asks queued for the user grows by one. *)
Theorem each_no_adds_a_reminder (clk : Clock) (user : telegram.User) (w : world) :
  job_queue (state_of (handle_callback clk user "no" w))
  = (job_queue w ++ [{| name := "delayed_question_" +:+ Py.str (telegram.id user);
                       when := 900; chat_id := telegram.id user |}])%list
  /\ length (reminders_for (telegram.id user) (state_of (handle_callback clk user "no" w)))
     = S (length (reminders_for (telegram.id user) w)).
Proof.
  split; [apply handle_callback_no|].
  unfold reminders_for. rewrite handle_callback_no, List.filter_app, length_app.
  cbn. rewrite bool_decide_eq_true_2 by done. cbn. lia.
Qed.

(** ** Counters of the response log *)

(** The aggregate counters of a day keep [total = yes + no]. *)
Lemma recorded_total timestamp user_id username response (d : DailyLog.t) :
  DailyLog.total_responses d = DailyLog.yes_responses d + DailyLog.no_responses d ->
  DailyLog.total_responses (recorded timestamp user_id username response d)
  = DailyLog.yes_responses (recorded timestamp user_id username response d)
    + DailyLog.no_responses (recorded timestamp user_id username response d).
Proof. intros H. cbn. case_decide; lia. Qed.

(** After any response the user's entry holds that one response only,
    whatever it held before. *)
Lemma user_entry_after_response clk user_id username response timestamp (f : file Logs) :
  exists d,
    logs_after clk user_id username response timestamp f
      !! datetime.isoformat (today clk) = Some d
    /\ DailyLog.users d !! Py.str user_id = Some (bump_user response (new_user username)).
Proof.
  unfold logs_after. eexists. rewrite lookup_insert_eq. split; [reflexivity|].
  cbn. by rewrite lookup_insert_eq.
Qed.

(** C2 at a failing input: after "no" from user 111 the entry of 111 has
    no-count 1; after a "yes" later that day the day's counters are total
    2, yes 1, no 1, but the entry of 111 is total 1, yes 1, no 0: the
    per-user totals sum to 1, and the user's no-count fell from 1 to 0. *)
Theorem log_response_forgets_user_counts :
  exists d1 d2,
    loaded (log_file one_no) !! "2024-03-09" = Some d1
    /\ DailyLog.users d1
       = {["111" := {| PerUser.username := "@alice"; PerUser.total_responses := 1;
                       PerUser.yes_count := 0; PerUser.no_count := 1 |}]}
    /\ loaded (log_file no_then_yes) !! "2024-03-09" = Some d2
    /\ DailyLog.total_responses d2 = 2
    /\ DailyLog.yes_responses d2 = 1
    /\ DailyLog.no_responses d2 = 1
    /\ DailyLog.users d2
       = {["111" := {| PerUser.username := "@alice"; PerUser.total_responses := 1;
                       PerUser.yes_count := 1; PerUser.no_count := 0 |}]}
    /\ sum_user_totals d2 = 1
    /\ length (DailyLog.responses d2) = 2%nat.
Proof.
  eexists _, _. split; [vm_compute; reflexivity|].
  split; [vm_compute; reflexivity|]. split; [vm_compute; reflexivity|].
  split_and!; vm_compute; reflexivity.
Qed.

(** ** What [log_response] leaves alone *)

(** C10. [log_response] returns and rewrites the log file only. In the
    new logs every date other than today maps to what it mapped to; in
    today's entry the ['date'] is kept, every key of ['users'] other than
    [str(user_id)] (so the entry of every other user) maps to what it
    mapped to, and ['responses'] is the old list followed by the new
    event. *)
Theorem log_response_frame (clk : Clock) (user_id : Z) (username response : string)
    (timestamp : option string) (w : world)
    (other_date other_key : string) (other_user : Z) :
  other_date <> datetime.isoformat (today clk) ->
  other_key <> Py.str user_id ->
  other_user <> user_id ->
  let logs := loaded (log_file w) in
  let old := default (new_day (datetime.isoformat (today clk)))
               (logs !! datetime.isoformat (today clk)) in
  exists logs' d,
    outcome_of (log_response clk user_id username response timestamp w) = Return tt
    /\ state_of (log_response clk user_id username response timestamp w)
       = set_log_file (Content logs') w
    /\ logs' !! other_date = logs !! other_date
    /\ logs' !! datetime.isoformat (today clk) = Some d
    /\ DailyLog.date d = DailyLog.date old
    /\ DailyLog.users d !! other_key = DailyLog.users old !! other_key
    /\ DailyLog.users d !! Py.str other_user = DailyLog.users old !! Py.str other_user
    /\ DailyLog.responses d
       = (DailyLog.responses old ++
          [{| Response.timestamp := default (now clk) timestamp;
              Response.user_id := user_id; Response.username := username;
              Response.response := response |}])%list.
Proof.
  intros Hdate Hkey Huser logs old. rewrite log_response_run. cbn [outcome_of state_of fst snd].
  eexists _, _. split; [reflexivity|]. split; [reflexivity|].
  unfold logs_after. rewrite lookup_insert_ne by done. rewrite lookup_insert_eq.
  split; [reflexivity|]. split; [reflexivity|]. cbn.
  rewrite !lookup_insert_ne; [done| |done].
  intros Heq. apply Huser. symmetry. by apply (inj Py.str).
Qed.

Lemma log_response_frame_witness :
  let logs := loaded (log_file one_no) in
  let old := default (new_day (datetime.isoformat (today noon)))
               (logs !! datetime.isoformat (today noon)) in
  exists logs' d,
    outcome_of (log_response noon 222 "User ID: 222" "yes" None one_no) = Return tt
    /\ state_of (log_response noon 222 "User ID: 222" "yes" None one_no)
       = set_log_file (Content logs') one_no
    /\ logs' !! "2024-03-08" = logs !! "2024-03-08"
    /\ logs' !! datetime.isoformat (today noon) = Some d
    /\ DailyLog.date d = DailyLog.date old
    /\ DailyLog.users d !! "111" = DailyLog.users old !! "111"
    /\ DailyLog.users d !! Py.str 111 = DailyLog.users old !! Py.str 111
    /\ DailyLog.responses d
       = (DailyLog.responses old ++
          [{| Response.timestamp := default (now noon) None;
              Response.user_id := 222; Response.username := "User ID: 222";
              Response.response := "yes" |}])%list.
Proof.
  apply (log_response_frame noon 222 "User ID: 222" "yes" None one_no
           "2024-03-08" "111" 111).
  - vm_compute. discriminate.
  - vm_compute. discriminate.
  - lia.
Defined.

(** ** Listing the log dates *)

Lemma ascii_compare_refl (c : ascii) : Ascii.compare c c = Eq.
Proof. unfold Ascii.compare. apply N.compare_refl. Qed.

Lemma string_compare_refl (s : string) : String.compare s s = Eq.
Proof. induction s as [|c s IH]; [done|]. cbn. by rewrite ascii_compare_refl. Qed.

Lemma string_compare_lt_trans (a b c : string) :
  String.compare a b = Lt -> String.compare b c = Lt -> String.compare a c = Lt.
Proof.
  revert b c. induction a as [|x a IH]; intros [|y b] [|z c]; cbn; try done.
  destruct (Ascii.compare x y) eqn:Hxy; try done;
    destruct (Ascii.compare y z) eqn:Hyz; try done; intros Hab Hbc.
  - apply Ascii.compare_eq_iff in Hxy, Hyz. subst. rewrite ascii_compare_refl. eauto.
  - apply Ascii.compare_eq_iff in Hxy. subst. by rewrite Hyz.
  - apply Ascii.compare_eq_iff in Hyz. subst. by rewrite Hxy.
  - unfold Ascii.compare in *. rewrite N.compare_lt_iff in Hxy, Hyz.
    assert (H : (N_of_ascii x ?= N_of_ascii z)%N = Lt) by (apply N.compare_lt_iff; lia).
    by rewrite H.
Qed.

Lemma str_le_lt_eq (a b : string) : str_le a b <-> str_lt a b \/ a = b.
Proof.
  unfold str_le, str_lt, String.leb. split.
  - destruct (String.compare a b) eqn:H; try done; [right|by left].
    by apply String.compare_eq_iff.
  - intros [->| ->]; [done|]. by rewrite string_compare_refl.
Qed.

Lemma str_lt_irrefl (a : string) : ~ str_lt a a.
Proof. unfold str_lt. by rewrite string_compare_refl. Qed.

Lemma str_ge_trans : Transitive str_ge.
Proof.
  intros a b c. unfold str_ge. rewrite !str_le_lt_eq.
  intros [H1| ->] [H2| ->]; eauto. left. by eapply string_compare_lt_trans.
Qed.

Lemma str_ge_total : Total str_ge.
Proof. intros a b. unfold str_ge, str_le. destruct (String.leb_total a b); eauto. Qed.

Lemma sorted_reverse_sorted (l : list string) : StronglySorted str_ge (sorted_reverse l).
Proof.
  pose proof str_ge_trans. pose proof str_ge_total.
  apply StronglySorted_merge_sort; apply _.
Qed.

Lemma sorted_reverse_perm (l : list string) : sorted_reverse l ≡ₚ l.
Proof. apply merge_sort_Permutation. Qed.

Lemma keys_NoDup {V} (d : gmap string V) : NoDup (keys d).
Proof. apply NoDup_fst_map_to_list. Qed.

Lemma elem_of_keys {V} (d : gmap string V) (k : string) : k ∈ keys d <-> is_Some (d !! k).
Proof.
  unfold keys. rewrite list_elem_of_fmap. split.
  - intros [[k' v] [-> H]]. apply elem_of_map_to_list in H. eauto.
  - intros [v H]. exists (k, v). split; [done|]. by apply elem_of_map_to_list.
Qed.

Lemma keys_length {V} (d : gmap string V) : length (keys d) = size d.
Proof. unfold keys. by rewrite length_fmap, length_map_to_list. Qed.

(** Without repetitions, descending means strictly descending. *)
Lemma strictly_descending (l : list string) :
  NoDup l -> StronglySorted str_ge l -> StronglySorted (fun a b => str_lt b a) l.
Proof.
  induction 1 as [|x l Hx Hl IH]; intros Hs; [constructor|].
  apply StronglySorted_inv in Hs as [Hs Hall]. constructor; [by apply IH|].
  rewrite Forall_forall in Hall |- *. intros y Hy.
  specialize (Hall y Hy). unfold str_ge in Hall. apply str_le_lt_eq in Hall as [H| ->]; done.
Qed.

Lemma listed_dates_spec (logs : Logs) :
  length (listed_dates logs) = (10 `min` size logs)%nat
  /\ (forall d, d ∈ listed_dates logs -> is_Some (logs !! d))
  /\ StronglySorted (fun a b => str_lt b a) (listed_dates logs)
  /\ (forall d d', is_Some (logs !! d) -> d ∉ listed_dates logs ->
                   d' ∈ listed_dates logs -> str_lt d d').
Proof.
  unfold listed_dates. set (s := sorted_reverse (keys logs)).
  assert (Hperm : s ≡ₚ keys logs) by apply sorted_reverse_perm.
  assert (Hnodup : NoDup s) by (rewrite Hperm; apply keys_NoDup).
  assert (Hsorted : StronglySorted (fun a b => str_lt b a) s)
    by (apply strictly_descending; [done|apply sorted_reverse_sorted]).
  rewrite <- (take_drop 10 s) in Hsorted. apply StronglySorted_app in Hsorted
    as (Hcross & Htake & _).
  split_and!.
  - by rewrite length_take, Hperm, keys_length.
  - intros d Hd. apply elem_of_keys. rewrite <- Hperm, <- (take_drop 10 s).
    apply elem_of_app. by left.
  - exact Htake.
  - intros d d' Hd Hnot Hd'. apply (Hcross d' d Hd').
    apply elem_of_keys in Hd. rewrite <- Hperm, <- (take_drop 10 s) in Hd.
    apply elem_of_app in Hd as [Hd|Hd]; done.
Qed.

Lemma log_rows_run (logs : Logs) (dates : list string) (w : world) :
  (forall d, d ∈ dates -> is_Some (logs !! d)) ->
  exists rows,
    log_rows logs dates w = (Return rows, w, [])
    /\ rows.*1 = dates
    /\ (forall d stats, (d, stats) ∈ rows -> logs !! d = Some stats).
Proof.
  induction dates as [|d dates IH]; intros Hall.
  - exists []. split_and!; [done..|]. intros ? ? H. by apply elem_of_nil in H.
  - destruct IH as (rows & Hrun & Hfst & Hrows); [intros; apply Hall; by right|].
    destruct (Hall d) as [stats Hstats]; [by left|].
    exists ((d, stats) :: rows). cbn [log_rows]. mred. unfold getitem.
    rewrite Hstats. mred. rewrite Hrun. split_and!; [done|cbn; by f_equal|].
    intros d' stats' [Heq|Hin]%elem_of_cons; [by simplify_eq|by apply Hrows].
Qed.

(** *** ISO dates compare as dates *)

Lemma compare_append (a1 b1 a2 b2 : string) :
  String.length a1 = String.length b1 ->
  String.compare (a1 +:+ a2) (b1 +:+ b2)
  = match String.compare a1 b1 with
    | Eq => String.compare a2 b2
    | c => c
    end.
Proof.
  revert b1. induction a1 as [|x a1 IH]; intros [|y b1] Hlen; try discriminate.
  - reflexivity.
  - change (String x a1 +:+ a2) with (String x (a1 +:+ a2)).
    change (String y b1 +:+ b2) with (String y (b1 +:+ b2)).
    cbn [String.compare]. destruct (Ascii.compare x y); try done.
    apply IH. cbn in Hlen. lia.
Qed.

Lemma pad2_compare_table :
  forallb (fun m => forallb (fun n =>
      comparison_eqb (String.compare (datetime.pad2 m) (datetime.pad2 n)) (m ?= n))
    (seqZ 0 100)) (seqZ 0 100) = true.
Proof. vm_compute. reflexivity. Qed.

Lemma pad2_compare (m n : Z) :
  0 <= m < 100 -> 0 <= n < 100 ->
  String.compare (datetime.pad2 m) (datetime.pad2 n) = (m ?= n).
Proof.
  intros Hm Hn. pose proof pad2_compare_table as H.
  rewrite forallb_forall in H. specialize (H m).
  rewrite forallb_forall in H. 
  assert (Hin : forall k, 0 <= k < 100 -> In k (seqZ 0 100)).
  { intros k Hk. apply list_elem_of_In, elem_of_seqZ. lia. }
  specialize (H (Hin m Hm) n (Hin n Hn)).
  by destruct (String.compare _ _), (m ?= n).
Qed.

Lemma pad4_compare (m n : Z) :
  0 <= m < 10000 -> 0 <= n < 10000 ->
  String.compare (datetime.pad4 m) (datetime.pad4 n) = (m ?= n).
Proof.
  intros Hm Hn. unfold datetime.pad4. rewrite compare_append by done.
  rewrite !pad2_compare by (try apply Z.mod_pos_bound; try split;
    try apply Z.div_pos; try apply Z.div_lt_upper_bound; lia).
  pose proof (Z.div_mod m 100 ltac:(lia)). pose proof (Z.div_mod n 100 ltac:(lia)).
  pose proof (Z.mod_pos_bound m 100 ltac:(lia)).
  pose proof (Z.mod_pos_bound n 100 ltac:(lia)).
  destruct (Z.compare_spec (m `div` 100) (n `div` 100));
    destruct (Z.compare_spec (m `mod` 100) (n `mod` 100));
    destruct (Z.compare_spec m n); try done; lia.
Qed.

Lemma isoformat_compare (a b : datetime.date) :
  datetime.valid a -> datetime.valid b ->
  String.compare (datetime.isoformat a) (datetime.isoformat b)
  = match datetime.year a ?= datetime.year b with
    | Eq => match datetime.month a ?= datetime.month b with
            | Eq => datetime.day a ?= datetime.day b
            | c => c
            end
    | c => c
    end.
Proof.
  intros (Hy & Hm & Hd) (Hy' & Hm' & Hd'). unfold datetime.isoformat.
  rewrite compare_append by done. rewrite pad4_compare by lia.
  destruct (datetime.year a ?= datetime.year b); try done.
  rewrite (compare_append "-" "-") by done. cbn [String.compare].
  rewrite ascii_compare_refl.
  rewrite compare_append by done. rewrite pad2_compare by lia.
  destruct (datetime.month a ?= datetime.month b); try done.
  rewrite (compare_append "-" "-") by done. cbn [String.compare].
  rewrite ascii_compare_refl. apply pad2_compare; lia.
Qed.

(** The order of two ISO dates as strings is their order as dates. *)
Lemma isoformat_lt (a b : datetime.date) :
  datetime.valid a -> datetime.valid b ->
  str_lt (datetime.isoformat a) (datetime.isoformat b) <-> datetime.before a b.
Proof.
  intros Ha Hb. unfold str_lt, datetime.before. rewrite isoformat_compare by done.
  destruct (Z.compare_spec (datetime.year a) (datetime.year b));
    destruct (Z.compare_spec (datetime.month a) (datetime.month b));
    destruct (Z.compare_spec (datetime.day a) (datetime.day b));
    split; intros; try done; try lia.
Qed.

Lemma strongly_sorted_lookup {A} (R : relation A) (l : list A) (i j : nat) (x y : A) :
  StronglySorted R l -> (i < j)%nat -> l !! i = Some x -> l !! j = Some y -> R x y.
Proof.
  intros Hs. revert i j. induction Hs as [|z l Hs IH Hall]; intros i j Hij Hi Hj.
  - by rewrite lookup_nil in Hi.
  - destruct j as [|j]; [lia|]. cbn in Hj. destruct i as [|i]; cbn in Hi.
    + simplify_eq. rewrite Forall_forall in Hall. apply Hall.
      by eapply list_elem_of_lookup_2.
    + apply (IH i j); [lia|done..].
Qed.

(** C9. With a log file that parses and is not empty, the inline logs view
    (of whoever presses the button) and /logs of an admin send the same
    rows (/logs of a user who is not an admin is refused): at most ten, as
    many as there are dates if fewer; every row is a date of the file with
    that date's entry; the rows are in strictly descending order of the
    date strings; every date of the file that is not listed is below every
    listed one; and rows that are ISO dates come latest first. *)
Theorem logs_listing (user : telegram.User) (logs : Logs) (w : world) :
  log_file w = Content logs ->
  logs <> ∅ ->
  exists rows : list (string * DailyLog.t),
    show_logs_inline w
    = (Return tt, w, [edit_message_text (LogsText true rows) back_keyboard])
    /\ logs_command user w
       = (Return tt, w,
          [reply_text (if bool_decide (telegram.id user ∈ admin_users w)
                       then LogsText false rows else not_available) []])
    /\ length rows = (10 `min` size logs)%nat
    /\ (forall d stats, (d, stats) ∈ rows -> logs !! d = Some stats)
    /\ (forall i j d d', (i < j)%nat -> rows.*1 !! i = Some d -> rows.*1 !! j = Some d' ->
                         str_lt d' d)
    /\ (forall d d', is_Some (logs !! d) -> d ∉ rows.*1 -> d' ∈ rows.*1 -> str_lt d d')
    /\ (forall i j a b, (i < j)%nat -> datetime.valid a -> datetime.valid b ->
                        rows.*1 !! i = Some (datetime.isoformat a) ->
                        rows.*1 !! j = Some (datetime.isoformat b) ->
                        datetime.before b a).
Proof.
  intros Hfile Hne.
  destruct (listed_dates_spec logs) as (Hlen & Hin & Hsorted & Hrest).
  destruct (log_rows_run logs (listed_dates logs) w Hin) as (rows & Hrun & Hfst & Hrows).
  exists rows.
  assert (Hdesc : forall i j d d', (i < j)%nat -> rows.*1 !! i = Some d ->
            rows.*1 !! j = Some d' -> str_lt d' d).
  { intros i j d d' Hij Hi Hj. rewrite Hfst in Hi, Hj.
    by apply (strongly_sorted_lookup _ _ i j d d' Hsorted). }
  split_and!.
  - unfold show_logs_inline, available_dates, json_load. mred. rewrite Hfile. mred.
    rewrite bool_decide_eq_false_2 by done. by rewrite Hrun.
  - unfold logs_command, available_dates, json_load. mred.
    case_bool_decide; cbn [negb]; [|done]. rewrite Hfile. mred.
    rewrite bool_decide_eq_false_2 by done. by rewrite Hrun.
  - by rewrite <- Hlen, <- Hfst, length_fmap.
  - exact Hrows.
  - exact Hdesc.
  - rewrite Hfst. exact Hrest.
  - intros i j a b Hij Ha Hb Hi Hj. apply isoformat_lt; [done..|]. by eapply Hdesc.
Qed.

(** With an empty log, both answer "No logs available.". *)
Lemma logs_listing_empty (user : telegram.User) (w : world) :
  log_file w = Content ∅ ->
  show_logs_inline w = (Return tt, w, [edit_message_text no_logs back_keyboard])
  /\ logs_command user w
     = (Return tt, w,
        [reply_text (if bool_decide (telegram.id user ∈ admin_users w)
                     then no_logs else not_available) []]).
Proof.
  intros Hfile. unfold logs_command, show_logs_inline, available_dates, json_load.
  split.
  - mred. rewrite Hfile. mred. by rewrite bool_decide_eq_true_2 by done.
  - mred. case_bool_decide; cbn [negb]; [|done]. rewrite Hfile. mred.
    by rewrite bool_decide_eq_true_2 by done.
Qed.

Example twelve_days_listed :
  listed_dates twelve_days_logs
  = ["2024-03-12"; "2024-03-11"; "2024-03-10"; "2024-03-09"; "2024-03-08";
     "2024-03-07"; "2024-03-06"; "2024-03-05"; "2024-03-04"; "2024-03-03"].
Proof. vm_compute. reflexivity. Qed.

Lemma logs_listing_witness :
  exists rows : list (string * DailyLog.t),
    show_logs_inline twelve_days
    = (Return tt, twelve_days, [edit_message_text (LogsText true rows) back_keyboard])
    /\ logs_command user_222 twelve_days
       = (Return tt, twelve_days,
          [reply_text (if bool_decide (telegram.id user_222 ∈ admin_users twelve_days)
                       then LogsText false rows else not_available) []])
    /\ length rows = (10 `min` size twelve_days_logs)%nat
    /\ (forall d stats, (d, stats) ∈ rows -> twelve_days_logs !! d = Some stats)
    /\ (forall i j d d', (i < j)%nat -> rows.*1 !! i = Some d -> rows.*1 !! j = Some d' ->
                         str_lt d' d)
    /\ (forall d d', is_Some (twelve_days_logs !! d) -> d ∉ rows.*1 -> d' ∈ rows.*1 ->
                     str_lt d d')
    /\ (forall i j a b, (i < j)%nat -> datetime.valid a -> datetime.valid b ->
                        rows.*1 !! i = Some (datetime.isoformat a) ->
                        rows.*1 !! j = Some (datetime.isoformat b) ->
                        datetime.before b a).
Proof.
  apply (logs_listing user_222 twelve_days_logs twelve_days).
  - vm_compute. reflexivity.
  - intros H. apply (f_equal size) in H. vm_compute in H. discriminate.
Defined.

(** 222, an admin, presses "Make Admin" and sends "333". *)
Example make_admin_scenario :
  admin_users (run prompted [(noon, TextMessage user_222 "333")]) = {[222; 333]}
  /\ regular_users (run prompted [(noon, TextMessage user_222 "333")]) = {[111]}.
Proof. split; vm_compute; reflexivity. Qed.

(** A superscript two passes [isdigit] and is rejected by [int]: the
    handler raises, after the pending action is gone. *)
Example superscript_digit :
  let text := String (ascii_of_nat 178) EmptyString in
  Py.isdigit text = true
  /\ outcome_of (handle_message user_222 text prompted)
     = Raise (Py.ValueError ("invalid literal for int() with base 10: '" +:+ text +:+ "'"))
  /\ user_data (state_of (handle_message user_222 text prompted)) !! 222 = None
  /\ admin_users (state_of (handle_message user_222 text prompted)) = admin_users prompted.
Proof. split_and!; vm_compute; reflexivity. Qed.

(** * Further properties of the handlers *)

(** ** Text messages and the roster *)

(** With a pending action and a text [int] parses, [handle_message] is the
    roster action on the state without the pending action. *)
Lemma handle_message_target user text action target w :
  telegram.id user ∈ admin_users w ->
  user_data w !! telegram.id user = Some action ->
  Py.int text = inr target ->
  handle_message user text w
  = perform_action action target (set_user_data (delete (telegram.id user)) w).
Proof.
  intros Hadmin Hp Hint. unfold handle_message, pending_action. mred.
  rewrite bool_decide_eq_true_2 by done.
  rewrite bool_decide_eq_true_2 by (rewrite Hp; eauto). cbn [andb].
  rewrite Hp, (int_isdigit _ _ Hint), Hint. mred.
  by destruct (perform_action action target _) as [[r w2] t2].
Qed.

(** Without a pending action that counts, [handle_message] only compares
    the text with the admin code. *)
Lemma handle_message_no_action (user : telegram.User) (w : world) :
  ~ (telegram.id user ∈ admin_users w /\ is_Some (user_data w !! telegram.id user)) ->
  bool_decide (telegram.id user ∈ admin_users w)
  && bool_decide (is_Some (user_data w !! telegram.id user)) = false.
Proof.
  intros H. apply andb_false_iff.
  destruct (decide (telegram.id user ∈ admin_users w)) as [Ha|Ha].
  - right. apply bool_decide_eq_false_2. tauto.
  - left. by apply bool_decide_eq_false_2.
Qed.

(** X1. A text message from a user who is not an admin holding a pending
    action, and that is not the admin code, is ignored: the handler
    returns, nothing is sent and no part of the state changes (a pending
    action stored for a user who is not an admin stays stored). *)
Theorem other_text_is_ignored (user : telegram.User) (text : string) (w : world) :
  ~ (telegram.id user ∈ admin_users w /\ is_Some (user_data w !! telegram.id user)) ->
  text <> admin_code ->
  handle_message user text w = (Return tt, w, []).
Proof.
  intros Hno Htext. unfold handle_message. mred.
  rewrite (handle_message_no_action user w Hno).
  by rewrite decide_False by done.
Qed.

Lemma other_text_is_ignored_witness :
  handle_message user_111 "admin2024" prompted = (Return tt, prompted, []).
Proof.
  apply (other_text_is_ignored user_111 "admin2024" prompted).
  - vm_compute. intros [H _]. discriminate H.
  - discriminate.
Defined.

Lemma perform_make_admin (target : Z) (w : world) :
  outcome_of (perform_action "user_make_admin" target w) = Return tt
  /\ admin_users (state_of (perform_action "user_make_admin" target w))
     = {[target]} ∪ admin_users w
  /\ regular_users (state_of (perform_action "user_make_admin" target w))
     = regular_users w ∖ {[target]}
  /\ users_file (state_of (perform_action "user_make_admin" target w))
     = Content {| admins := elements ({[target]} ∪ admin_users w);
                  regular := elements (regular_users w ∖ {[target]}) |}
  /\ user_data (state_of (perform_action "user_make_admin" target w)) = user_data w
  /\ trace_of (perform_action "user_make_admin" target w)
     = [write users_file_name; logger_info (Line "Users saved successfully");
        reply_text (NowAdmin target) []].
Proof.
  unfold perform_action, save_users. rewrite decide_True by done. mred.
  destruct (decide (target ∈ regular_users w)) as [Hin|Hin].
  - rewrite bool_decide_eq_true_2 by done. mred. cbn. done.
  - rewrite bool_decide_eq_false_2 by done. mred. cbn.
    assert (Heq : regular_users w ∖ {[target]} = regular_users w) by set_solver.
    rewrite Heq. done.
Qed.

Lemma perform_remove_admin (target : Z) (w : world) :
  target ∈ admin_users w ->
  outcome_of (perform_action "user_remove_admin" target w) = Return tt
  /\ admin_users (state_of (perform_action "user_remove_admin" target w))
     = admin_users w ∖ {[target]}
  /\ regular_users (state_of (perform_action "user_remove_admin" target w))
     = {[target]} ∪ regular_users w
  /\ users_file (state_of (perform_action "user_remove_admin" target w))
     = Content {| admins := elements (admin_users w ∖ {[target]});
                  regular := elements ({[target]} ∪ regular_users w) |}
  /\ user_data (state_of (perform_action "user_remove_admin" target w)) = user_data w
  /\ trace_of (perform_action "user_remove_admin" target w)
     = [write users_file_name; logger_info (Line "Users saved successfully");
        reply_text (RemovedFromAdmins target) []].
Proof.
  intros Hin. unfold perform_action, save_users.
  rewrite decide_False by discriminate. rewrite decide_True by done. mred.
  rewrite bool_decide_eq_true_2 by done. mred. cbn. done.
Qed.

(** X2. The admin code, sent by a user who is not an admin holding a
    pending action, makes the sender an admin: the sender joins
    [admin_users] and leaves [regular_users], nobody else moves, the new
    roster is written to bot_users.json, pending actions are untouched and
    the reply is the admin welcome. *)
Theorem admin_code_promotes (user : telegram.User) (w : world) :
  ~ (telegram.id user ∈ admin_users w /\ is_Some (user_data w !! telegram.id user)) ->
  outcome_of (handle_message user admin_code w) = Return tt
  /\ admin_users (state_of (handle_message user admin_code w))
     = {[telegram.id user]} ∪ admin_users w
  /\ regular_users (state_of (handle_message user admin_code w))
     = regular_users w ∖ {[telegram.id user]}
  /\ users_file (state_of (handle_message user admin_code w))
     = Content {| admins := elements ({[telegram.id user]} ∪ admin_users w);
                  regular := elements (regular_users w ∖ {[telegram.id user]}) |}
  /\ user_data (state_of (handle_message user admin_code w)) = user_data w
  /\ trace_of (handle_message user admin_code w)
     = [write users_file_name; logger_info (Line "Users saved successfully");
        reply_text AdminAccessGranted []].
Proof.
  intros Hno. unfold handle_message, save_users. mred.
  rewrite (handle_message_no_action user w Hno).
  rewrite decide_True by done. mred. cbn [regular_users set_admin_users].
  destruct (decide (telegram.id user ∈ regular_users w)) as [Hin|Hin].
  - rewrite bool_decide_eq_true_2 by done. mred. cbn. done.
  - rewrite bool_decide_eq_false_2 by done. mred. cbn.
    assert (Heq : regular_users w ∖ {[telegram.id user]} = regular_users w) by set_solver.
    rewrite Heq. done.
Qed.

Lemma admin_code_promotes_witness :
  outcome_of (handle_message user_111 admin_code prompted) = Return tt
  /\ admin_users (state_of (handle_message user_111 admin_code prompted))
     = {[telegram.id user_111]} ∪ admin_users prompted
  /\ regular_users (state_of (handle_message user_111 admin_code prompted))
     = regular_users prompted ∖ {[telegram.id user_111]}
  /\ users_file (state_of (handle_message user_111 admin_code prompted))
     = Content {| admins := elements ({[telegram.id user_111]} ∪ admin_users prompted);
                  regular := elements (regular_users prompted ∖ {[telegram.id user_111]}) |}
  /\ user_data (state_of (handle_message user_111 admin_code prompted)) = user_data prompted
  /\ trace_of (handle_message user_111 admin_code prompted)
     = [write users_file_name; logger_info (Line "Users saved successfully");
        reply_text AdminAccessGranted []].
Proof.
  apply (admin_code_promotes user_111 prompted).
  vm_compute. intros [H _]. discriminate H.
Defined.

(** X3. An admin holding the pending action "user_make_admin" sends the
    digits of an id: the handler returns, the target joins [admin_users]
    and leaves [regular_users] (whether or not it was known before), the
    pending action is gone, the new roster is written to bot_users.json and
    the reply names the new admin. *)
Theorem make_admin_promotes_target (user : telegram.User) (text : string) (target : Z)
    (w : world) :
  telegram.id user ∈ admin_users w ->
  user_data w !! telegram.id user = Some "user_make_admin" ->
  Py.int text = inr target ->
  outcome_of (handle_message user text w) = Return tt
  /\ admin_users (state_of (handle_message user text w)) = {[target]} ∪ admin_users w
  /\ regular_users (state_of (handle_message user text w)) = regular_users w ∖ {[target]}
  /\ users_file (state_of (handle_message user text w))
     = Content {| admins := elements ({[target]} ∪ admin_users w);
                  regular := elements (regular_users w ∖ {[target]}) |}
  /\ user_data (state_of (handle_message user text w))
     = delete (telegram.id user) (user_data w)
  /\ trace_of (handle_message user text w)
     = [write users_file_name; logger_info (Line "Users saved successfully");
        reply_text (NowAdmin target) []].
Proof.
  intros Hadmin Hp Hint. rewrite (handle_message_target user text _ target w Hadmin Hp Hint).
  exact (perform_make_admin target (set_user_data (delete (telegram.id user)) w)).
Qed.

Lemma make_admin_promotes_target_witness :
  outcome_of (handle_message user_222 "111" prompted) = Return tt
  /\ admin_users (state_of (handle_message user_222 "111" prompted))
     = {[111]} ∪ admin_users prompted
  /\ regular_users (state_of (handle_message user_222 "111" prompted))
     = regular_users prompted ∖ {[111]}
  /\ users_file (state_of (handle_message user_222 "111" prompted))
     = Content {| admins := elements ({[111]} ∪ admin_users prompted);
                  regular := elements (regular_users prompted ∖ {[111]}) |}
  /\ user_data (state_of (handle_message user_222 "111" prompted))
     = delete (telegram.id user_222) (user_data prompted)
  /\ trace_of (handle_message user_222 "111" prompted)
     = [write users_file_name; logger_info (Line "Users saved successfully");
        reply_text (NowAdmin 111) []].
Proof.
  apply (make_admin_promotes_target user_222 "111" 111 prompted).
  - vm_compute. reflexivity.
  - vm_compute. reflexivity.
  - reflexivity.
Defined.

(** X4. An admin holding the pending action "user_remove_admin" sends the
    digits of the id of an admin (possibly the sender, possibly the last
    admin): the handler returns, the target leaves [admin_users] and joins
    [regular_users], the pending action is gone, the new roster is written
    to bot_users.json and the reply names the removed admin. *)
Theorem remove_admin_demotes_target (user : telegram.User) (text : string) (target : Z)
    (w : world) :
  telegram.id user ∈ admin_users w ->
  user_data w !! telegram.id user = Some "user_remove_admin" ->
  Py.int text = inr target ->
  target ∈ admin_users w ->
  outcome_of (handle_message user text w) = Return tt
  /\ admin_users (state_of (handle_message user text w)) = admin_users w ∖ {[target]}
  /\ regular_users (state_of (handle_message user text w)) = {[target]} ∪ regular_users w
  /\ users_file (state_of (handle_message user text w))
     = Content {| admins := elements (admin_users w ∖ {[target]});
                  regular := elements ({[target]} ∪ regular_users w) |}
  /\ user_data (state_of (handle_message user text w))
     = delete (telegram.id user) (user_data w)
  /\ trace_of (handle_message user text w)
     = [write users_file_name; logger_info (Line "Users saved successfully");
        reply_text (RemovedFromAdmins target) []].
Proof.
  intros Hadmin Hp Hint Hin.
  rewrite (handle_message_target user text _ target w Hadmin Hp Hint).
  exact (perform_remove_admin target (set_user_data (delete (telegram.id user)) w) Hin).
Qed.

Lemma remove_admin_demotes_target_witness :
  outcome_of (handle_message user_222 "222" removal_prompted) = Return tt
  /\ admin_users (state_of (handle_message user_222 "222" removal_prompted))
     = admin_users removal_prompted ∖ {[222]}
  /\ regular_users (state_of (handle_message user_222 "222" removal_prompted))
     = {[222]} ∪ regular_users removal_prompted
  /\ users_file (state_of (handle_message user_222 "222" removal_prompted))
     = Content {| admins := elements (admin_users removal_prompted ∖ {[222]});
                  regular := elements ({[222]} ∪ regular_users removal_prompted) |}
  /\ user_data (state_of (handle_message user_222 "222" removal_prompted))
     = delete (telegram.id user_222) (user_data removal_prompted)
  /\ trace_of (handle_message user_222 "222" removal_prompted)
     = [write users_file_name; logger_info (Line "Users saved successfully");
        reply_text (RemovedFromAdmins 222) []].
Proof.
  apply (remove_admin_demotes_target user_222 "222" 222 removal_prompted).
  - vm_compute. reflexivity.
  - vm_compute. reflexivity.
  - reflexivity.
  - vm_compute. reflexivity.
Defined.

(** X5. An admin holding a pending action sends a text that is not made
    of digits: the pending action is dropped and that is the only change;
    nothing is written, and the one reply is the "not implemented" notice
    when the text starts with "@" and the "invalid format" notice
    otherwise. *)
Theorem bad_target_only_clears (user : telegram.User) (text : string) (w : world) :
  telegram.id user ∈ admin_users w ->
  is_Some (user_data w !! telegram.id user) ->
  Py.isdigit text = false ->
  handle_message user text w
  = (Return tt, set_user_data (delete (telegram.id user)) w,
     [reply_text (if Py.startswith "@" text
                  then UsernameLookupNotImplemented else invalid_format) []]).
Proof.
  intros Hadmin [action Hp] Hdigit. unfold handle_message, pending_action. mred.
  rewrite bool_decide_eq_true_2 by done.
  rewrite bool_decide_eq_true_2 by (rewrite Hp; eauto). cbn [andb].
  rewrite Hp, Hdigit. mred. by destruct (Py.startswith "@" text).
Qed.

Lemma bad_target_only_clears_witness :
  handle_message user_222 "@alice" prompted
  = (Return tt, set_user_data (delete (telegram.id user_222)) prompted,
     [reply_text (if Py.startswith "@" "@alice"
                  then UsernameLookupNotImplemented else invalid_format) []]).
Proof.
  apply (bad_target_only_clears user_222 "@alice" prompted).
  - vm_compute. reflexivity.
  - vm_compute. eexists. reflexivity.
  - reflexivity.
Defined.

(** ** Every handler moves the state by the listed changes only *)

Lemma changes_step (w0 w w' : world) : rtc change w0 w -> change w w' -> rtc change w0 w'.
Proof. intros H Hc. eapply rtc_r; eauto. Qed.

Lemma save_after_move (A R : gset Z) (w0 w : world) :
  rtc change w0 w ->
  roster_move (admin_users w) (regular_users w) A R ->
  rtc change w0
    (set_users_file (Content {| admins := elements A; regular := elements R |})
       (set_regular_users (fun _ => R) (set_admin_users (fun _ => A) w))).
Proof. intros H Hm. eapply changes_step; [exact H|]. by apply change_roster. Qed.

Lemma start_command_changes w0 user : preserves (rtc change w0) (start_command user).
Proof.
  intros w H. unfold start_command, send_question, save_users. mrun; [exact H|].
  cbn [admin_users regular_users set_regular_users set_user_states].
  apply (save_after_move (admin_users w) ({[telegram.id user]} ∪ regular_users w) w0
           (set_user_states <[telegram.id user:="active"]> w)).
  - eapply changes_step; [exact H|]. apply change_user_states.
  - by apply move_register.
Qed.

Lemma promote_changes (u : Z) (w0 w : world) :
  rtc change w0 w ->
  rtc change w0
    (set_users_file
       (Content {| admins := elements ({[u]} ∪ admin_users w);
                   regular := elements (regular_users w ∖ {[u]}) |})
       (set_regular_users (fun s => s ∖ {[u]}) (set_admin_users (fun s => {[u]} ∪ s) w)))
  /\ (u ∉ regular_users w ->
      rtc change w0
        (set_users_file
           (Content {| admins := elements ({[u]} ∪ admin_users w);
                       regular := elements (regular_users w) |})
           (set_admin_users (fun s => {[u]} ∪ s) w))).
Proof.
  intros H.
  pose proof (save_after_move ({[u]} ∪ admin_users w) (regular_users w ∖ {[u]}) w0 w H
                (move_promote _ _ u)) as Hs.
  split; [exact Hs|]. intros Hnot.
  assert (Heq : regular_users w ∖ {[u]} = regular_users w) by set_solver.
  rewrite Heq in Hs. exact Hs.
Qed.

Lemma demote_changes (u : Z) (w0 w : world) :
  u ∈ admin_users w ->
  rtc change w0 w ->
  rtc change w0
    (set_users_file
       (Content {| admins := elements (admin_users w ∖ {[u]});
                   regular := elements ({[u]} ∪ regular_users w) |})
       (set_regular_users (fun s => {[u]} ∪ s) (set_admin_users (fun s => s ∖ {[u]}) w))).
Proof.
  intros Hin H.
  exact (save_after_move (admin_users w ∖ {[u]}) ({[u]} ∪ regular_users w) w0 w H
           (move_demote _ _ u Hin)).
Qed.

Lemma perform_action_changes w0 action target :
  preserves (rtc change w0) (perform_action action target).
Proof.
  intros w H. unfold perform_action, save_users.
  destruct (promote_changes target w0 w H) as [Hp1 Hp2].
  mrun; cbn [admin_users regular_users set_regular_users set_admin_users];
    [exact Hp1|by apply Hp2|by apply demote_changes|exact H|exact H].
Qed.

Lemma handle_message_changes w0 user text :
  preserves (rtc change w0) (handle_message user text).
Proof.
  intros w H. unfold handle_message. mred.
  destruct (bool_decide (telegram.id user ∈ admin_users w)
            && bool_decide (is_Some (user_data w !! telegram.id user))).
  - unfold pending_action. destruct (user_data w !! telegram.id user) as [action|]; mred;
      [|exact H].
    assert (Hd : rtc change w0 (set_user_data (delete (telegram.id user)) w))
      by (eapply changes_step; [exact H|apply change_user_data]).
    destruct (Py.isdigit text).
    + destruct (Py.int text) as [e|target]; mred; cbn [fst snd]; [exact Hd|].
      pose proof (perform_action_changes w0 action target _ Hd) as Hp.
      unfold state_of in Hp.
      by destruct (perform_action action target _) as [[r w2] t2].
    + destruct (Py.startswith "@" text); mred; exact Hd.
  - unfold save_users. destruct (promote_changes (telegram.id user) w0 w H) as [Hp1 Hp2].
    mrun; cbn [admin_users regular_users set_regular_users set_admin_users];
      [exact Hp1| |exact H].
    apply Hp2. cbn [regular_users set_admin_users] in *. done.
Qed.

Lemma leave_admins_changes w0 user_id (w : world) :
  user_id ∈ admin_users w ->
  rtc change w0 w -> rtc change w0 (state_of (leave_admins user_id w)).
Proof. intros Hin H. unfold leave_admins, save_users. mred. by apply demote_changes. Qed.

Lemma exit_command_changes w0 user : preserves (rtc change w0) (exit_command user).
Proof.
  intros w H. unfold exit_command. mred.
  destruct (decide (telegram.id user ∈ admin_users w)) as [Hin|Hin].
  - rewrite bool_decide_eq_true_2 by done. cbn [negb]. mred.
    pose proof (leave_admins_changes w0 _ w Hin H) as Hl. unfold state_of in Hl.
    by destruct (leave_admins (telegram.id user) w) as [[[]] t2].
  - rewrite bool_decide_eq_false_2 by done. exact H.
Qed.

Lemma preserves_get_bind (P : world -> Prop) {B} (k : world -> M B) :
  (forall w, P w -> P (state_of (k w w))) -> preserves P (bind get k).
Proof.
  intros Hk w H. specialize (Hk w H). unfold state_of, bind, get in *.
  by destruct (k w w) as [[r w2] t2].
Qed.

Lemma handle_callback_changes w0 clk user data :
  preserves (rtc change w0) (handle_callback clk user data).
Proof.
  unfold handle_callback.
  apply preserves_bind; [apply preserves_emit|intros _].
  apply preserves_bind; [apply preserves_get|intros self].
  apply preserves_bind.
  { destruct (negb _); [|apply preserves_ret]. intros w Hw.
    eapply changes_step; [exact Hw|apply change_user_states]. }
  intros _.
  repeat (case_decide;
          [first [ apply preserves_emit
                 | apply preserves_same; intros w;
                   first [ apply show_stats_inline_state | apply show_logs_inline_state
                         | apply show_users_list_state ]
                 | idtac ] | ]).
  - apply preserves_get_bind. intros w Hw.
    destruct (decide (telegram.id user ∈ admin_users w)) as [Hin|Hin].
    + rewrite bool_decide_eq_true_2 by done.
      pose proof (leave_admins_changes w0 _ w Hin Hw) as Hl. mred.
      by destruct (leave_admins (telegram.id user) w) as [[[]] t2].
    + rewrite bool_decide_eq_false_2 by done. exact Hw.
  - apply preserves_bind; [apply preserves_emit|intros _].
    apply preserves_same; intros w; apply show_users_list_state.
  - apply preserves_bind; [apply preserves_emit|intros _]. intros w Hw.
    eapply changes_step; [exact Hw|apply change_user_data].
  - apply preserves_bind; [apply preserves_get|intros self'].
    apply preserves_bind.
    { destruct (bool_decide _); [|apply preserves_ret]. intros w Hw.
      eapply changes_step; [exact Hw|apply change_user_data]. }
    intros _. apply preserves_same; intros w; apply show_users_list_state.
  - intros w Hw. destruct (handle_yes_choice_state clk user w) as [-> _].
    eapply changes_step; [exact Hw|apply change_log].
  - intros w Hw. destruct (handle_no_choice_state clk user w) as [-> _].
    eapply changes_step; [|apply change_job_queue].
    eapply changes_step; [exact Hw|apply change_log].
  - apply preserves_ret.
Qed.

Lemma dispatch_changes w0 clk u : preserves (rtc change w0) (dispatch clk u).
Proof.
  destruct u as [command user|user text|user data|i| |]; cbn [dispatch].
  - repeat case_decide.
    + apply start_command_changes.
    + apply preserves_same. intros w. apply admin_command_state.
    + apply preserves_same. intros w. apply stats_command_state.
    + apply preserves_same. intros w. apply logs_command_state.
    + apply preserves_same. intros w. apply users_command_state.
    + apply exit_command_changes.
    + apply preserves_ret.
  - apply handle_message_changes.
  - apply handle_callback_changes.
  - apply preserves_bind; [apply preserves_get|intros w1].
    destruct (job_queue w1 !! i) as [job|]; [|apply preserves_ret].
    apply preserves_bind; [|intros _; apply preserves_emit].
    intros w Hw. eapply changes_step; [exact Hw|apply change_job_queue].
  - apply preserves_same. intros w. apply send_daily_message_state.
  - intros w Hw. mred. cbn [fst snd].
    pose proof (change_restart w) as Hr. unfold state_of in Hr.
    destruct (__init__ (blank (log_file w) (users_file w))) as [[r w2] t2].
    eapply changes_step; [exact Hw|exact Hr].
Qed.

Lemma run_changes (us : list (Clock * update)) (w0 w : world) :
  rtc change w0 w -> rtc change w0 (run w us).
Proof.
  revert w. induction us as [|[clk u] us IH]; intros w H; [exact H|].
  cbn [run]. apply IH. by apply dispatch_changes.
Qed.

(** An invariant of the listed changes holds after every run. *)
Lemma run_invariant (P : world -> Prop) (us : list (Clock * update)) (w : world) :
  (forall w1 w2, P w1 -> change w1 w2 -> P w2) -> P w -> P (run w us).
Proof.
  intros Hstep Hw. pose proof (run_changes us w w (rtc_refl _ _)) as Hr.
  induction Hr as [|w1 w2 w3 H12 H23 IH]; [exact Hw|]. apply IH. by eapply Hstep.
Qed.

(** X6. Whatever update the bot handles, in whatever state, the state
    moves only by a sequence of the listed changes: [user_states], pending
    actions or the job queue change; a response is recorded in the log
    file; the roster makes one of its three moves (register, promote,
    demote) and is saved at once; or the bot restarts. In particular no
    handler removes a user from the roster or edits a file otherwise. *)
Theorem handlers_change_state_by_moves (clk : Clock) (u : update) (w : world) :
  rtc change w (state_of (dispatch clk u w)).
Proof. apply dispatch_changes. apply rtc_refl. Qed.

(** ** The saved roster and the known users *)

Lemma restart_roster (w : world) :
  roster_saved w ->
  admin_users (state_of (__init__ (blank (log_file w) (users_file w)))) = admin_users w
  /\ regular_users (state_of (__init__ (blank (log_file w) (users_file w)))) = regular_users w
  /\ users_file (state_of (__init__ (blank (log_file w) (users_file w)))) = users_file w
  /\ loaded (log_file (state_of (__init__ (blank (log_file w) (users_file w)))))
     = loaded (log_file w).
Proof.
  unfold roster_saved, __init__, ensure_log_file, load_users, json_load.
  destruct (log_file w), (users_file w) as [| |r]; mred; cbn; intros H;
    try done; destruct H as [-> ->]; done.
Qed.

Lemma change_roster_saved (w1 w2 : world) : roster_saved w1 -> change w1 w2 -> roster_saved w2.
Proof.
  intros H Hc. destruct Hc as [f|f|f|clk uid uname resp ts|A R Hm|]; try exact H.
  - unfold roster_saved, with_roster. cbn. by rewrite !list_to_set_elements_L.
  - destruct (restart_roster w1 H) as (Ha & Hr & Hf & _).
    unfold roster_saved in *. rewrite Ha, Hr, Hf. exact H.
Qed.

Lemma first_launch_saved : roster_saved first_launch.
Proof. vm_compute. split; reflexivity. Qed.

Lemma run_app (us us' : list (Clock * update)) (w : world) :
  run w (us ++ us') = run (run w us) us'.
Proof.
  revert w. induction us as [|[clk u] us IH]; intros w; [done|]. cbn. apply IH.
Qed.

(** X7. In every state reached from the first launch, a restart brings
    back the roster that was in memory: [save_users] after each move and
    [load_users] at start-up are inverse to each other, and the log is
    read back as it was. *)
Theorem restart_restores_roster (us : list (Clock * update)) (clk : Clock) :
  admin_users (state_of (dispatch clk Restart (run first_launch us)))
  = admin_users (run first_launch us)
  /\ regular_users (state_of (dispatch clk Restart (run first_launch us)))
     = regular_users (run first_launch us)
  /\ users_file (state_of (dispatch clk Restart (run first_launch us)))
     = users_file (run first_launch us)
  /\ loaded (log_file (state_of (dispatch clk Restart (run first_launch us))))
     = loaded (log_file (run first_launch us)).
Proof.
  assert (Hs : roster_saved (run first_launch us))
    by (apply run_invariant; [apply change_roster_saved|apply first_launch_saved]).
  pose proof (restart_roster _ Hs) as Hr. cbn [dispatch]. mred. cbn [fst snd].
  unfold state_of in Hr.
  by destruct (__init__ (blank (log_file (run first_launch us))
                           (users_file (run first_launch us)))) as [[r w2] t2].
Qed.

Lemma change_known (K : gset Z) (w1 w2 : world) :
  roster_saved w1 /\ K ⊆ known_users w1 -> change w1 w2 ->
  roster_saved w2 /\ K ⊆ known_users w2.
Proof.
  intros [Hs HK] Hc. split; [by eapply change_roster_saved|].
  destruct Hc as [f|f|f|clk uid uname resp ts|A R Hm|]; try exact HK.
  - clear Hs. unfold known_users, with_roster in *. cbn.
    intros x Hx. apply HK in Hx. destruct Hm as [u Hu|u|u Hu];
      destruct (decide (x = u)); set_solver.
  - destruct (restart_roster w1 Hs) as (Ha & Hr & _).
    unfold known_users in *. by rewrite Ha, Hr.
Qed.

(** X8. No user is ever forgotten: whoever is in the roster (admin or
    regular) after a run from the first launch is still in it after any
    further updates, restarts included. *)
Theorem no_user_forgotten (us us' : list (Clock * update)) :
  known_users (run first_launch us) ⊆ known_users (run first_launch (us ++ us')).
Proof.
  rewrite run_app.
  assert (Hs : roster_saved (run first_launch us))
    by (apply run_invariant; [apply change_roster_saved|apply first_launch_saved]).
  apply (run_invariant
           (fun w => roster_saved w /\ known_users (run first_launch us) ⊆ known_users w)
           us' (run first_launch us)); [apply change_known|done].
Qed.

(** ** The log after any run *)

Lemma init_log (logs : file Logs) (users : file Roster) :
  loaded (log_file (state_of (__init__ (blank logs users)))) = loaded logs.
Proof.
  unfold __init__, ensure_log_file, load_users, json_load.
  destruct logs, users as [| |r]; mred; cbn; done.
Qed.

Lemma new_day_consistent (key : string) : day_consistent key (new_day key).
Proof. unfold day_consistent, answers. cbn. done. Qed.

Lemma recorded_consistent key timestamp user_id username response (d : DailyLog.t) :
  day_consistent key d ->
  day_consistent key (recorded timestamp user_id username response d).
Proof.
  intros (Hdate & Htotal & Hyes & Hsum). unfold day_consistent, answers in *. cbn.
  rewrite List.filter_app, !length_app. cbn.
  split_and!; [done|lia| |case_decide; lia].
  case_decide as Hr.
  - rewrite bool_decide_eq_true_2 by done. cbn. lia.
  - rewrite bool_decide_eq_false_2 by done. cbn. lia.
Qed.

Lemma logs_after_lookup clk user_id username response timestamp (f : file Logs) (key : string) :
  logs_after clk user_id username response timestamp f !! key
  = if decide (key = datetime.isoformat (today clk))
    then Some (recorded (default (now clk) timestamp) user_id username response
                 (default (new_day (datetime.isoformat (today clk)))
                    (loaded f !! datetime.isoformat (today clk))))
    else loaded f !! key.
Proof.
  unfold logs_after. case_decide as Hk.
  - subst. by rewrite lookup_insert_eq.
  - by rewrite lookup_insert_ne.
Qed.

Lemma change_logs_consistent (w1 w2 : world) :
  logs_consistent (log_file w1) -> change w1 w2 -> logs_consistent (log_file w2).
Proof.
  intros H Hc. destruct Hc as [f|f|f|clk uid uname resp ts|A R Hm|]; try exact H.
  - intros key d. cbn [log_file set_log_file loaded]. rewrite logs_after_lookup.
    case_decide as Hk; [|apply H]. intros [= <-]. subst key.
    apply recorded_consistent.
    destruct (loaded (log_file w1) !! _) as [old|] eqn:Hold; cbn.
    + by apply H.
    + apply new_day_consistent.
  - intros key d. rewrite init_log. apply H.
Qed.

Lemma first_launch_log : loaded (log_file first_launch) = ∅.
Proof. reflexivity. Qed.

(** X9. After any run from the first launch, every day of the log is
    filed under its own date and its aggregate counters count the recorded
    events: the total is the number of events, the yes counter the number
    of "yes" events, and total = yes + no. *)
Theorem log_counters_count_events (us : list (Clock * update)) (key : string)
    (d : DailyLog.t) :
  loaded (log_file (run first_launch us)) !! key = Some d ->
  DailyLog.date d = key
  /\ DailyLog.total_responses d = Z.of_nat (length (DailyLog.responses d))
  /\ DailyLog.yes_responses d = answers "yes" d
  /\ DailyLog.total_responses d = DailyLog.yes_responses d + DailyLog.no_responses d.
Proof.
  revert key d. change (logs_consistent (log_file (run first_launch us))).
  apply run_invariant; [apply change_logs_consistent|].
  intros key d. by rewrite first_launch_log, lookup_empty.
Qed.

Lemma log_counters_count_events_witness :
  exists d,
    loaded (log_file no_then_yes) !! "2024-03-09" = Some d
    /\ DailyLog.date d = "2024-03-09"
    /\ DailyLog.total_responses d = Z.of_nat (length (DailyLog.responses d))
    /\ DailyLog.yes_responses d = answers "yes" d
    /\ DailyLog.total_responses d = DailyLog.yes_responses d + DailyLog.no_responses d.
Proof.
  eexists. split; [vm_compute; reflexivity|].
  apply (log_counters_count_events
           [(noon, Command "start" user_111);
            (noon, CallbackQuery user_111 "no");
            (noon, CallbackQuery user_111 "yes")] "2024-03-09").
  vm_compute. reflexivity.
Defined.

Lemma change_user_entries_single (w1 w2 : world) :
  user_entries_single (log_file w1) -> change w1 w2 -> user_entries_single (log_file w2).
Proof.
  intros H Hc. destruct Hc as [f|f|f|clk uid uname resp ts|A R Hm|]; try exact H.
  - intros key d k u. cbn [log_file set_log_file loaded]. rewrite logs_after_lookup.
    case_decide as Hk; [|apply H]. intros [= <-]. cbn [DailyLog.users recorded].
    destruct (decide (k = Py.str uid)) as [->|Hne].
    + rewrite lookup_insert_eq. intros [= <-]. unfold single_response, bump_user. cbn.
      case_decide; split; (lia || (left; lia) || (right; lia)).
    + rewrite lookup_insert_ne by done.
      destruct (loaded (log_file w1) !! _) as [old|] eqn:Hold; cbn.
      * intros Hu. by apply (H _ old k u Hold).
      * by rewrite lookup_empty.
  - intros key d k u. rewrite init_log. apply H.
Qed.

(** X10. After any run from the first launch, every per-user entry of the
    log counts exactly one response (total 1, and either yes 1 and no 0 or
    yes 0 and no 1), however often the user answered that day: each
    response replaces the user's entry. *)
Theorem user_entries_count_one (us : list (Clock * update)) (key k : string)
    (d : DailyLog.t) (u : PerUser.t) :
  loaded (log_file (run first_launch us)) !! key = Some d ->
  DailyLog.users d !! k = Some u ->
  PerUser.total_responses u = 1
  /\ ((PerUser.yes_count u = 1 /\ PerUser.no_count u = 0)
      \/ (PerUser.yes_count u = 0 /\ PerUser.no_count u = 1)).
Proof.
  revert key d k u. change (user_entries_single (log_file (run first_launch us))).
  apply run_invariant; [apply change_user_entries_single|].
  intros key d k u. by rewrite first_launch_log, lookup_empty.
Qed.

Lemma user_entries_count_one_witness :
  exists d u,
    loaded (log_file no_then_yes) !! "2024-03-09" = Some d
    /\ DailyLog.users d !! "111" = Some u
    /\ PerUser.total_responses u = 1
    /\ ((PerUser.yes_count u = 1 /\ PerUser.no_count u = 0)
        \/ (PerUser.yes_count u = 0 /\ PerUser.no_count u = 1)).
Proof.
  eexists _, _. split; [vm_compute; reflexivity|]. split; [vm_compute; reflexivity|].
  eapply (user_entries_count_one
            [(noon, Command "start" user_111);
             (noon, CallbackQuery user_111 "no");
             (noon, CallbackQuery user_111 "yes")] "2024-03-09" "111").
  - vm_compute. reflexivity.
  - vm_compute. reflexivity.
Defined.

(** ** Who is sent a message *)

Lemma for_each_sends (l : list Z) (body : Z -> M unit) (mk : Z -> effect) (w : world) :
  (forall x w', exists t, body x w' = (Return tt, w', t)
                          /\ List.filter is_send_message t = [mk x]) ->
  exists t, for_each l body w = (Return tt, w, t)
            /\ List.filter is_send_message t = mk <$> l.
Proof.
  intros Hbody. induction l as [|x l IH]; cbn [for_each].
  - by exists [].
  - destruct (Hbody x w) as (t1 & H1 & F1). destruct IH as (t2 & H2 & F2).
    exists (t1 ++ t2)%list. mred. rewrite H1, H2. split; [done|].
    by rewrite List.filter_app, F1, F2.
Qed.

(** X11. The daily job sends the question, with its two buttons, to every
    regular user exactly once and to nobody else, and changes no state,
    whether or not anybody is an admin; so when the roster sets are
    disjoint (as they are in every state reached from the first launch) no
    admin is sent the daily question. *)
Theorem daily_question_recipients (w : world) :
  state_of (send_daily_message w) = w
  /\ List.filter is_send_message (trace_of (send_daily_message w))
     = (fun user_id => send_message user_id Question question_keyboard)
         <$> elements (regular_users w)
  /\ (forall x message markup,
        send_message x message markup ∈ trace_of (send_daily_message w) ->
        x ∈ regular_users w /\ message = Question /\ markup = question_keyboard)
  /\ (forall x message markup,
        admin_users w ## regular_users w -> x ∈ admin_users w ->
        send_message x message markup ∉ trace_of (send_daily_message w)).
Proof.
  unfold send_daily_message. mred.
  edestruct (for_each_sends (elements (regular_users w))) as (t & Ht & Hf);
    [|rewrite Ht; cbn [fst snd]].
  { intros u w'. eexists. split; [reflexivity|]. reflexivity. }
  assert (Hsent : forall x message markup,
            send_message x message markup
            ∈ (logger_info (Line "Sending daily messages...") :: t)%list ->
            x ∈ regular_users w /\ message = Question /\ markup = question_keyboard).
  { intros x message markup Hin.
    apply elem_of_cons in Hin as [Hin|Hin]; [discriminate|].
    assert (Hin' : send_message x message markup ∈ List.filter is_send_message t).
    { apply list_elem_of_In, List.filter_In. split; [by apply list_elem_of_In|done]. }
    rewrite Hf in Hin'. apply list_elem_of_fmap in Hin' as (u & Heq & Hu).
    injection Heq as -> -> ->. by apply elem_of_elements in Hu. }
  split; [done|]. split; [cbn; exact Hf|]. split; [exact Hsent|].
  intros x message markup Hdisj Hx Hin.
  destruct (Hsent x message markup Hin) as [Hreg _]. set_solver.
Qed.

(** X12. When there are admins, a "yes" is notified to every admin exactly
    once, with the notification text for that user, and to nobody else;
    the handler returns. *)
Theorem yes_notifies_every_admin (clk : Clock) (user : telegram.User) (w : world) :
  admin_users w <> ∅ ->
  returns (handle_yes_choice clk user w)
  /\ List.filter is_send_message (trace_of (handle_yes_choice clk user w))
     = (fun admin_id =>
          send_message admin_id (AdminNotification (user_info user) user) [])
         <$> elements (admin_users w).
Proof.
  intros Hne. unfold handle_yes_choice. mred. rewrite log_response_run.
  cbn [admin_users set_log_file]. rewrite bool_decide_eq_false_2 by done. cbn [negb].
  edestruct (for_each_sends (elements (admin_users w))) as (t & Ht & Hf);
    [|cbn [admin_users set_log_file] in Ht; mred; rewrite Ht; cbn [fst snd]].
  { intros a w'. eexists. split; [reflexivity|]. reflexivity. }
  split; [eauto|]. cbn. exact Hf.
Qed.

Lemma yes_notifies_every_admin_witness :
  returns (handle_yes_choice noon user_111 prompted)
  /\ List.filter is_send_message (trace_of (handle_yes_choice noon user_111 prompted))
     = (fun admin_id =>
          send_message admin_id (AdminNotification (user_info user_111) user_111) [])
         <$> elements (admin_users prompted).
Proof.
  apply (yes_notifies_every_admin noon user_111 prompted).
  intros H. apply (f_equal size) in H. vm_compute in H. discriminate.
Defined.

(** ** Handlers that return *)

Lemma returns_bind {A B} (m : M A) (k : A -> M B) :
  (forall w, returns (m w)) -> (forall a w, returns (k a w)) ->
  forall w, returns (bind m k w).
Proof.
  intros Hm Hk w. destruct (Hm w) as [a Ha]. unfold returns, outcome_of, bind in *.
  destruct (m w) as [[r w1] t1]. cbn in Ha. subst r.
  destruct (Hk a w1) as [b Hb]. destruct (k a w1) as [[r w2] t2]. cbn in *. eauto.
Qed.

Lemma returns_emit e w : returns (emit e w).
Proof. by exists tt. Qed.

Lemma returns_ret {A} (a : A) w : returns (ret a w).
Proof. by exists a. Qed.

Lemma returns_get w : returns (get w).
Proof. by exists w. Qed.

Lemma returns_modify f w : returns (modify f w).
Proof. by exists tt. Qed.

Lemma leave_admins_returns user_id w : returns (leave_admins user_id w).
Proof. by exists tt. Qed.

Lemma start_command_returns user w : returns (start_command user w).
Proof. unfold start_command, send_question, save_users. mrun; by exists tt. Qed.

Lemma exit_command_returns user w : returns (exit_command user w).
Proof. unfold exit_command, leave_admins, save_users. mrun; by exists tt. Qed.

Lemma perform_action_returns action target w : returns (perform_action action target w).
Proof. unfold perform_action, save_users. mrun; by exists tt. Qed.

Lemma init_returns logs users : returns (__init__ (blank logs users)).
Proof.
  unfold __init__, ensure_log_file, load_users, json_load.
  destruct logs, users as [| |r]; mred; cbn; by exists tt.
Qed.

Lemma handle_callback_returns clk user data w : returns (handle_callback clk user data w).
Proof.
  revert w. unfold handle_callback.
  apply returns_bind; [apply returns_emit|intros _].
  apply returns_bind; [apply returns_get|intros self].
  apply returns_bind.
  { destruct (negb _); [apply returns_modify|apply returns_ret]. }
  intros _.
  repeat (case_decide;
          [first [ apply returns_emit
                 | intros w;
                   first [ apply show_stats_inline_state | apply show_logs_inline_state
                         | apply show_users_list_state ]
                 | idtac ] | ]).
  - apply returns_bind; [apply returns_get|intros self'].
    destruct (bool_decide _); [|apply returns_ret].
    apply returns_bind; [apply leave_admins_returns|intros _; apply returns_emit].
  - apply returns_bind; [apply returns_emit|intros _].
    intros w; apply show_users_list_state.
  - apply returns_bind; [apply returns_emit|intros _]. apply returns_modify.
  - apply returns_bind; [apply returns_get|intros self'].
    apply returns_bind.
    { destruct (bool_decide _); [apply returns_modify|apply returns_ret]. }
    intros _ w. apply show_users_list_state.
  - intros w. apply handle_yes_choice_state.
  - intros w. apply handle_no_choice_state.
  - apply returns_ret.
Qed.

(** ** Ids as text *)

Lemma pretty_N_char_decimal (d : N) :
  (d < 10)%N ->
  Py.char_isdecimal (pretty_N_char d) = true
  /\ Py.code (pretty_N_char d) - 48 = Z.of_N d.
Proof.
  intros Hd.
  assert (Hc : (d = 0 \/ d = 1 \/ d = 2 \/ d = 3 \/ d = 4 \/ d = 5 \/ d = 6 \/ d = 7
                \/ d = 8 \/ d = 9)%N) by lia.
  destruct_or!; subst; split; vm_compute; reflexivity.
Qed.

Lemma int_go_pretty (x : N) :
  forall (s : string) (acc : Z),
    exists k : Z, 0 <= k
      /\ Py.int_go acc (pretty_N_go x s) = Py.int_go (acc * 10 ^ k + Z.of_N x) s.
Proof.
  induction (N.lt_wf_0 x) as [x _ IH]. intros s acc.
  destruct (decide (x = 0)%N) as [->|Hx].
  - exists 0. rewrite pretty_N_go_0. split; [done|]. f_equal. lia.
  - rewrite pretty_N_go_step by lia.
    assert (Hlt : (x `div` 10 < x)%N) by (apply N.div_lt; lia).
    destruct (IH _ Hlt (String (pretty_N_char (x `mod` 10)) s) acc) as (k & Hk & ->).
    exists (k + 1). split; [lia|]. cbn [Py.int_go].
    destruct (pretty_N_char_decimal (x `mod` 10)%N) as [-> ->];
      [apply N.mod_lt; lia|].
    f_equal. rewrite Z.pow_add_r by lia.
    pose proof (N.div_mod x 10 ltac:(lia)) as Hdm.
    assert (Z.of_N x = 10 * Z.of_N (x `div` 10) + Z.of_N (x `mod` 10)) by lia.
    lia.
Qed.

Lemma pretty_N_go_nonempty (x : N) :
  forall s : string, s <> EmptyString -> pretty_N_go x s <> EmptyString.
Proof.
  induction (N.lt_wf_0 x) as [x _ IH]. intros s Hs.
  destruct (decide (x = 0)%N) as [->|Hx].
  - by rewrite pretty_N_go_0.
  - rewrite pretty_N_go_step by lia. apply IH; [apply N.div_lt; lia|done].
Qed.

(** [int] reads back what [str] prints for an id that is not negative. *)
Lemma int_str (n : Z) : 0 <= n -> Py.int (Py.str n) = inr n.
Proof.
  intros Hn. destruct n as [|p|p]; [reflexivity| |lia].
  unfold Py.str, pretty, pretty_Z, pretty, pretty_positive, pretty, pretty_N.
  rewrite decide_False by done.
  assert (Hne : pretty_N_go (N.pos p) "" <> EmptyString).
  { rewrite pretty_N_go_step by lia. apply pretty_N_go_nonempty. done. }
  destruct (int_go_pretty (N.pos p) "" 0) as (k & _ & Hgo).
  unfold Py.int. destruct (pretty_N_go (N.pos p) "") as [|c s]; [done|].
  rewrite Hgo. cbn [Py.int_go]. f_equal; lia.
Qed.

(** X14. The id of a user as the bot prints it is read back as that id:
    for an id that is not negative [int(str(id))] is the id, so an admin
    holding the pending action "user_make_admin" who sends the printed id
    makes exactly that user an admin. *)
Theorem printed_id_selects_target (user : telegram.User) (target : Z) (w : world) :
  0 <= target ->
  telegram.id user ∈ admin_users w ->
  user_data w !! telegram.id user = Some "user_make_admin" ->
  Py.int (Py.str target) = inr target
  /\ admin_users (state_of (handle_message user (Py.str target) w))
     = {[target]} ∪ admin_users w
  /\ regular_users (state_of (handle_message user (Py.str target) w))
     = regular_users w ∖ {[target]}.
Proof.
  intros Hpos Hadmin Hp. pose proof (int_str target Hpos) as Hint.
  split; [exact Hint|].
  rewrite (handle_message_target user _ _ target w Hadmin Hp Hint).
  destruct (perform_make_admin target (set_user_data (delete (telegram.id user)) w))
    as (_ & Ha & Hr & _).
  split; [exact Ha|exact Hr].
Qed.

Lemma printed_id_selects_target_witness :
  Py.int (Py.str 111) = inr 111
  /\ admin_users (state_of (handle_message user_222 (Py.str 111) prompted))
     = {[111]} ∪ admin_users prompted
  /\ regular_users (state_of (handle_message user_222 (Py.str 111) prompted))
     = regular_users prompted ∖ {[111]}.
Proof.
  apply (printed_id_selects_target user_222 111 prompted).
  - lia.
  - vm_compute. reflexivity.
  - vm_compute. reflexivity.
Defined.

(** ** Unreadable files *)

(** X15. The user list does not fail when the log cannot be read: for an
    admin, with the log file missing or malformed, /users returns, leaves
    the state alone and sends the list built from an empty log and the
    roster; the inline view does the same. No error text is sent. *)
Theorem users_list_without_log (user : telegram.User) (w : world) (e : Py.exn) :
  telegram.id user ∈ admin_users w ->
  read_error (log_file w) = Some e ->
  users_command user w
  = (Return tt, w,
     [reply_text (UsersList ∅ (admin_users w) (regular_users w)) users_keyboard])
  /\ show_users_list false w
     = (Return tt, w,
        [edit_message_text (UsersList ∅ (admin_users w) (regular_users w)) users_keyboard]).
Proof.
  intros Hadmin He. unfold users_command, show_users_list, build_users_list, json_load.
  mred. rewrite bool_decide_eq_true_2 by done. cbn [negb].
  destruct (log_file w) as [|msg|logs]; cbn in He; simplify_eq; mred; done.
Qed.

Lemma users_list_without_log_witness :
  users_command user_222 log_removed
  = (Return tt, log_removed,
     [reply_text (UsersList ∅ (admin_users log_removed) (regular_users log_removed))
        users_keyboard])
  /\ show_users_list false log_removed
     = (Return tt, log_removed,
        [edit_message_text
           (UsersList ∅ (admin_users log_removed) (regular_users log_removed))
           users_keyboard]).
Proof.
  apply (users_list_without_log user_222 log_removed
           (Py.FileNotFoundError "[Errno 2] No such file or directory: 'bot_logs.json'")).
  - vm_compute. reflexivity.
  - reflexivity.
Defined.

(** X16. When the log file is missing or malformed, recording a response
    does not fail: it writes a new log whose only date is today, holding
    that one response; whatever the unreadable file held is replaced. *)
Theorem log_response_starts_new_log (clk : Clock) (user_id : Z)
    (username response : string) (timestamp : option string) (w : world) (e : Py.exn) :
  read_error (log_file w) = Some e ->
  returns (log_response clk user_id username response timestamp w)
  /\ log_file (state_of (log_response clk user_id username response timestamp w))
     = Content {[datetime.isoformat (today clk) :=
                   recorded (default (now clk) timestamp) user_id username response
                     (new_day (datetime.isoformat (today clk)))]}.
Proof.
  intros He. rewrite log_response_run. split; [by exists tt|].
  cbn [state_of fst snd log_file set_log_file]. unfold logs_after.
  destruct (log_file w) as [|msg|logs]; cbn in He; simplify_eq; cbn [loaded];
    by rewrite lookup_empty, insert_empty.
Qed.

Lemma log_response_starts_new_log_witness :
  returns (log_response noon 111 "@alice" "yes" None log_removed)
  /\ log_file (state_of (log_response noon 111 "@alice" "yes" None log_removed))
     = Content {[datetime.isoformat (today noon) :=
                   recorded (default (now noon) None) 111 "@alice" "yes"
                     (new_day (datetime.isoformat (today noon)))]}.
Proof.
  apply (log_response_starts_new_log noon 111 "@alice" "yes" None log_removed
           (Py.FileNotFoundError "[Errno 2] No such file or directory: 'bot_logs.json'")).
  reflexivity.
Defined.

(** X17. Start-up never fails and never overwrites a file that exists:
    [SimpleBot()] returns; bot_users.json is left as it is; the log file
    is created empty only when it is missing (a malformed one is kept);
    the roster is the two lists of bot_users.json read as sets, and is
    empty when that file is missing or malformed. *)
Theorem init_reads_and_keeps_files (logs : file Logs) (users : file Roster) :
  returns (__init__ (blank logs users))
  /\ state_of (__init__ (blank logs users))
     = {| user_states := ∅;
          admin_users := match users with
                         | Content r => list_to_set (admins r)
                         | _ => ∅
                         end;
          regular_users := match users with
                           | Content r => list_to_set (regular r)
                           | _ => ∅
                           end;
          user_data := ∅;
          job_queue := [];
          log_file := match logs with
                      | Missing => Content ∅
                      | _ => logs
                      end;
          users_file := users |}.
Proof.
  split; [apply init_returns|].
  unfold __init__, ensure_log_file, load_users, json_load.
  destruct logs, users as [| |r]; mred; cbn; done.
Qed.

(** ** Leaving and re-entering admin mode, cancelling, reading back *)

Lemma handle_callback_admin_exit clk user w :
  telegram.id user ∈ admin_users w ->
  admin_users (state_of (handle_callback clk user "admin_exit" w))
  = admin_users w ∖ {[telegram.id user]}
  /\ regular_users (state_of (handle_callback clk user "admin_exit" w))
     = {[telegram.id user]} ∪ regular_users w
  /\ users_file (state_of (handle_callback clk user "admin_exit" w))
     = Content {| admins := elements (admin_users w ∖ {[telegram.id user]});
                  regular := elements ({[telegram.id user]} ∪ regular_users w) |}.
Proof.
  intros Hin. unfold handle_callback, leave_admins, save_users. mred. pick_branch.
  destruct (negb _); mred; cbn [admin_users set_user_states];
    rewrite bool_decide_eq_true_2 by done; mred; cbn; done.
Qed.

Lemma exit_command_roster user w :
  telegram.id user ∈ admin_users w ->
  admin_users (state_of (exit_command user w)) = admin_users w ∖ {[telegram.id user]}
  /\ regular_users (state_of (exit_command user w)) = {[telegram.id user]} ∪ regular_users w
  /\ users_file (state_of (exit_command user w))
     = Content {| admins := elements (admin_users w ∖ {[telegram.id user]});
                  regular := elements ({[telegram.id user]} ∪ regular_users w) |}
  /\ user_data (state_of (exit_command user w)) = user_data w.
Proof.
  intros Hin. unfold exit_command, leave_admins, save_users. mred.
  rewrite bool_decide_eq_true_2 by done. cbn [negb]. mred. cbn. done.
Qed.

(** X18. For an admin, the "Exit Admin" button and the /exit command do
    the same to the roster: the user leaves [admin_users], joins
    [regular_users], and the same roster is written to bot_users.json. *)
Theorem exit_button_is_exit_command (clk : Clock) (user : telegram.User) (w : world) :
  telegram.id user ∈ admin_users w ->
  admin_users (state_of (handle_callback clk user "admin_exit" w))
  = admin_users (state_of (exit_command user w))
  /\ regular_users (state_of (handle_callback clk user "admin_exit" w))
     = regular_users (state_of (exit_command user w))
  /\ users_file (state_of (handle_callback clk user "admin_exit" w))
     = users_file (state_of (exit_command user w))
  /\ (telegram.id user ∉ admin_users (state_of (exit_command user w)))
  /\ (telegram.id user ∈ regular_users (state_of (exit_command user w))).
Proof.
  intros Hin.
  destruct (handle_callback_admin_exit clk user w Hin) as (-> & -> & ->).
  destruct (exit_command_roster user w Hin) as (-> & -> & -> & _).
  split_and!; [done..| |]; set_solver.
Qed.

Lemma exit_button_is_exit_command_witness :
  admin_users (state_of (handle_callback noon user_222 "admin_exit" prompted))
  = admin_users (state_of (exit_command user_222 prompted))
  /\ regular_users (state_of (handle_callback noon user_222 "admin_exit" prompted))
     = regular_users (state_of (exit_command user_222 prompted))
  /\ users_file (state_of (handle_callback noon user_222 "admin_exit" prompted))
     = users_file (state_of (exit_command user_222 prompted))
  /\ (telegram.id user_222 ∉ admin_users (state_of (exit_command user_222 prompted)))
  /\ (telegram.id user_222 ∈ regular_users (state_of (exit_command user_222 prompted))).
Proof.
  apply (exit_button_is_exit_command noon user_222 prompted).
  vm_compute. reflexivity.
Defined.

(** X19. Leaving admin mode and coming back with the admin code is a round
    trip on the roster: for an admin who is not also listed as a regular
    user, /exit followed by the admin code gives back the two sets as
    they were (also when a pending action of that user was still stored). *)
Theorem exit_then_code_restores_roster (user : telegram.User) (w : world) :
  telegram.id user ∈ admin_users w ->
  telegram.id user ∉ regular_users w ->
  admin_users (state_of (handle_message user admin_code (state_of (exit_command user w))))
  = admin_users w
  /\ regular_users
       (state_of (handle_message user admin_code (state_of (exit_command user w))))
     = regular_users w.
Proof.
  intros Hin Hnot.
  destruct (exit_command_roster user w Hin) as (Ha & Hr & _ & _).
  set (w1 := state_of (exit_command user w)) in *.
  assert (Hno : ~ (telegram.id user ∈ admin_users w1
                   /\ is_Some (user_data w1 !! telegram.id user)))
    by (rewrite Ha; set_solver).
  unfold handle_message, save_users. mred.
  rewrite (handle_message_no_action user w1 Hno). rewrite decide_True by done. mred.
  cbn [regular_users set_admin_users]. rewrite bool_decide_eq_true_2 by set_solver.
  mred. cbn. rewrite Ha, Hr. split.
  - apply set_eq. intros x. destruct (decide (x = telegram.id user)); set_solver.
  - apply set_eq. intros x. destruct (decide (x = telegram.id user)); set_solver.
Qed.

Lemma exit_then_code_restores_roster_witness :
  admin_users (state_of (handle_message user_222 admin_code
                           (state_of (exit_command user_222 prompted))))
  = admin_users prompted
  /\ regular_users (state_of (handle_message user_222 admin_code
                                (state_of (exit_command user_222 prompted))))
     = regular_users prompted.
Proof.
  apply (exit_then_code_restores_roster user_222 prompted).
  - vm_compute. reflexivity.
  - vm_compute. discriminate.
Defined.

(** X20. The "Back" button of the target prompt cancels the pending
    action: after it the user holds none, the roster and its file are as
    before, and the next text message of the user (unless it is the admin
    code) is ignored instead of being read as a target id. *)
Theorem back_button_cancels_action (clk : Clock) (user : telegram.User) (text : string)
    (w : world) :
  text <> admin_code ->
  user_data (state_of (handle_callback clk user "admin_users_return" w))
    !! telegram.id user = None
  /\ admin_users (state_of (handle_callback clk user "admin_users_return" w))
     = admin_users w
  /\ regular_users (state_of (handle_callback clk user "admin_users_return" w))
     = regular_users w
  /\ users_file (state_of (handle_callback clk user "admin_users_return" w))
     = users_file w
  /\ handle_message user text (state_of (handle_callback clk user "admin_users_return" w))
     = (Return tt, state_of (handle_callback clk user "admin_users_return" w), []).
Proof.
  intros Htext.
  assert (Hstate : user_data (state_of (handle_callback clk user "admin_users_return" w))
                     !! telegram.id user = None
                   /\ same_roster w (state_of (handle_callback clk user "admin_users_return" w))).
  { unfold handle_callback. mred. pick_branch.
    destruct (negb _); mred; cbn [user_data set_user_states];
      (destruct (user_data w !! telegram.id user) as [a|] eqn:Hp;
       [rewrite bool_decide_eq_true_2 by eauto
       |rewrite bool_decide_eq_false_2 by (by intros [? ?])]); mred;
      match goal with
      | |- context [show_users_list false ?w'] =>
          destruct (show_users_list_state false w') as [Hs _];
          unfold state_of in Hs; destruct (show_users_list false w') as [[r w2] t2];
          cbn in Hs; subst w2
      end; cbn; unfold same_roster; cbn;
      rewrite ?lookup_delete_eq; done. }
  destruct Hstate as (Hnone & Ha & Hr & Hf). split_and!; [done..|].
  set (w' := state_of (handle_callback clk user "admin_users_return" w)) in *.
  unfold handle_message. mred.
  rewrite (handle_message_no_action user w')
    by (rewrite Hnone; intros [_ [? ?]]; discriminate).
  by rewrite decide_False by done.
Qed.

Lemma back_button_cancels_action_witness :
  user_data (state_of (handle_callback noon user_222 "admin_users_return" prompted))
    !! telegram.id user_222 = None
  /\ admin_users (state_of (handle_callback noon user_222 "admin_users_return" prompted))
     = admin_users prompted
  /\ regular_users (state_of (handle_callback noon user_222 "admin_users_return" prompted))
     = regular_users prompted
  /\ users_file (state_of (handle_callback noon user_222 "admin_users_return" prompted))
     = users_file prompted
  /\ handle_message user_222 "111"
       (state_of (handle_callback noon user_222 "admin_users_return" prompted))
     = (Return tt, state_of (handle_callback noon user_222 "admin_users_return" prompted),
        []).
Proof.
  apply (back_button_cancels_action noon user_222 "111" prompted). discriminate.
Defined.

(** X21. What is recorded is what the statistics show: after a user's
    "yes" or "no", /stats of an admin at the same date answers with
    today's entry as [log_response] wrote it (never with "no data"), and
    changes nothing. *)
Theorem stats_show_recorded_response (clk : Clock) (user admin : telegram.User)
    (response : string) (w : world) :
  telegram.id admin ∈ admin_users w ->
  let w' := state_of (log_response clk (telegram.id user) (user_info user) response None w) in
  stats_command clk admin w'
  = (Return tt, w',
     [reply_text
        (StatsText false
           (recorded (now clk) (telegram.id user) (user_info user) response
              (default (new_day (datetime.isoformat (today clk)))
                 (loaded (log_file w) !! datetime.isoformat (today clk)))))
        []]).
Proof.
  intros Hadmin w'. subst w'. rewrite log_response_run. cbn [state_of fst snd].
  unfold stats_command, todays_stats, json_load, getitem. mred.
  cbn [admin_users log_file set_log_file]. rewrite bool_decide_eq_true_2 by done.
  cbn [negb]. mred. cbn [log_file set_log_file]. mred. cbn [Py.contains].
  rewrite !logs_after_lookup, !decide_True by done.
  rewrite bool_decide_eq_true_2 by eauto. cbn [negb]. mred. reflexivity.
Qed.

Lemma stats_show_recorded_response_witness :
  let w' := state_of (log_response noon (telegram.id user_111) (user_info user_111) "no"
                        None prompted) in
  stats_command noon user_222 w'
  = (Return tt, w',
     [reply_text
        (StatsText false
           (recorded (now noon) (telegram.id user_111) (user_info user_111) "no"
              (default (new_day (datetime.isoformat (today noon)))
                 (loaded (log_file prompted) !! datetime.isoformat (today noon)))))
        []]).
Proof.
  apply (stats_show_recorded_response noon user_111 user_222 "no" prompted).
  vm_compute. reflexivity.
Defined.
